(** * Static quality metrics for Java test files: a shallow embedding

    This development embeds [evomaster/evomaster-config/scripts/code_metrics.py]
    (class [JavaTestAnalyzer] and [calculate_quality_score]) and states the
    properties of its analyzers as theorems.

    Conventions of the embedding.
    - A Python [str] is a [list ascii]; a character is read as the code point
      with the same number (U+0000 to U+00FF), and [isspace] and the word
      characters of [re] follow the Unicode classification of that range.
    - A Python [int] is a [Z]; the result of [len] is a [nat].
    - A Python [float] is the rational number it denotes ([Q]); [round(x, 1)]
      is rounding to the nearest tenth, ties to the even tenth.
    - A function that can raise returns an [option]; [None] is the exception. *)

From Stdlib Require Import Ascii String DecimalString ZArith QArith Qround Qminmax Reals.
From Stdlib Require Import Lia Lqa Lra Bool Arith List Permutation.
Import ListNotations.
Close Scope Q_scope.
Close Scope R_scope.

Set Implicit Arguments.

(** ** Python strings *)

Module PyStr.

Definition text := list ascii.

Definition str (s : string) : text := list_ascii_of_string s.

Definition nl : ascii := "010"%char.

(** [str.isspace] on one character: U+0009..U+000D, U+001C..U+0020,
    U+0085 and U+00A0. *)
Definition isspace (c : ascii) : bool :=
  let n := nat_of_ascii c in
  ((9 <=? n) && (n <=? 13)) || ((28 <=? n) && (n <=? 32))
  || (n =? 133) || (n =? 160).

Fixpoint lstrip (s : text) : text :=
  match s with
  | [] => []
  | c :: r => if isspace c then lstrip r else s
  end.

Definition rstrip (s : text) : text := rev (lstrip (rev s)).

(** [s.strip()] *)
Definition strip (s : text) : text := rstrip (lstrip s).

(** [s.startswith(p)] *)
Fixpoint startswith (s p : text) : bool :=
  match p, s with
  | [], _ => true
  | _ :: _, [] => false
  | a :: p', b :: s' => Ascii.eqb a b && startswith s' p'
  end.

(** [s.endswith(p)] *)
Definition endswith (s p : text) : bool := startswith (rev s) (rev p).

Definition text_eqb (a b : text) : bool :=
  if list_eq_dec ascii_dec a b then true else false.

(** [s.split(sep)] for a one-character separator: [cur] holds the
    characters of the piece being read, last one first. *)
Fixpoint split_from (sep : ascii) (cur : text) (s : text) : list text :=
  match s with
  | [] => [rev cur]
  | c :: r =>
      if Ascii.eqb c sep then rev cur :: split_from sep [] r
      else split_from sep (c :: cur) r
  end.

Definition split (sep : ascii) (s : text) : list text := split_from sep [] s.

(** [s.split()]: the maximal runs of characters that are not whitespace. *)
Fixpoint words_from (cur : text) (s : text) : list text :=
  match s with
  | [] => match cur with [] => [] | _ => [rev cur] end
  | c :: r =>
      if isspace c
      then match cur with [] => words_from [] r | _ => rev cur :: words_from [] r end
      else words_from (c :: cur) r
  end.

Definition split_ws (s : text) : list text := words_from [] s.

(** [s.count(c)] for a one-character [c]. *)
Definition count_char (c : ascii) (s : text) : nat :=
  length (filter (Ascii.eqb c) s).

(** [s[a:b]] for [0 <= a]. *)
Definition slice (s : text) (a b : nat) : text := firstn (b - a) (skipn a s).

End PyStr.

(** ** Python numbers *)

Module PyNum.

(** [round(q, 1)]: the nearest tenth, a tie going to the even tenth. *)
Definition round1 (q : Q) : Q :=
  let n := (Qnum q * 10)%Z in
  let d := Zpos (Qden q) in
  let fl := (n / d)%Z in
  let r := (n mod d)%Z in
  let t := if (2 * r <? d)%Z then fl
           else if (d <? 2 * r)%Z then (fl + 1)%Z
           else if Z.even fl then fl else (fl + 1)%Z in
  Qmake t 10.

(** [int(q)]: truncation towards zero. *)
Definition py_int (q : Q) : Z := Z.quot (Qnum q) (Zpos (Qden q)).

Definition of_nat (n : nat) : Q := inject_Z (Z.of_nat n).

End PyNum.

(** ** Python regular expressions

    The part of [re] that the analyzer uses: literals, classes, groups,
    alternation, greedy repetition, [\b], [^], [$], the flags [re.I] and
    [re.MULTILINE], and the functions [search], [match], [findall] and
    [finditer].  Patterns are kept as the source writes them and parsed by
    [compile]; matching is the backtracking search of the [re] module, so
    that the first match found is the one Python reports. *)

Module Re.
Import PyStr.

Inductive citem : Type :=
| CChar (c : ascii)
| CRange (lo hi : ascii)
| CWord
| CSpace
| CDigit.

Inductive re : Type :=
| Eps
| Lit (c : ascii)
| Dot
| Cls (neg : bool) (items : list citem)
| Cat (a b : re)
| Alt (a b : re)
| Rep (r : re) (lo : nat) (hi : option nat)
| Grp (n : nat) (r : re)
| Bnd
| Bol
| Eol
| Bad.

Record flags : Type := { ignorecase : bool; multiline : bool }.

Definition no_flags : flags := {| ignorecase := false; multiline := false |}.
Definition I : flags := {| ignorecase := true; multiline := false |}.
Definition MULTILINE : flags := {| ignorecase := false; multiline := true |}.

(** *** Character classes *)

Definition between (lo hi n : nat) : bool := (lo <=? n) && (n <=? hi).

Definition isdigit (c : ascii) : bool := between 48 57 (nat_of_ascii c).

(** [\w]: [str.isalnum] or an underscore. *)
Definition isword (c : ascii) : bool :=
  let n := nat_of_ascii c in
  between 48 57 n || between 65 90 n || between 97 122 n || (n =? 95)
  || (n =? 170) || (n =? 178) || (n =? 179) || (n =? 181) || (n =? 185)
  || (n =? 186) || between 188 190 n || between 192 214 n
  || between 216 246 n || between 248 255 n.

Definition lower (c : ascii) : ascii :=
  let n := nat_of_ascii c in
  if between 65 90 n || between 192 214 n || between 216 222 n
  then ascii_of_nat (n + 32) else c.

Definition upper (c : ascii) : ascii :=
  let n := nat_of_ascii c in
  if between 97 122 n || between 224 246 n || between 248 254 n
  then ascii_of_nat (n - 32) else c.

Definition in_item (x : ascii) (it : citem) : bool :=
  match it with
  | CChar c => Ascii.eqb c x
  | CRange lo hi => between (nat_of_ascii lo) (nat_of_ascii hi) (nat_of_ascii x)
  | CWord => isword x
  | CSpace => isspace x
  | CDigit => isdigit x
  end.

Definition in_items (items : list citem) (x : ascii) : bool :=
  existsb (in_item x) items.

Definition lit_match (fl : flags) (c x : ascii) : bool :=
  if ignorecase fl then Ascii.eqb (lower c) (lower x) else Ascii.eqb c x.

Definition cls_match (fl : flags) (neg : bool) (items : list citem) (x : ascii) : bool :=
  let hit := in_items items x
             || (ignorecase fl && (in_items items (lower x) || in_items items (upper x))) in
  if neg then negb hit else hit.

(** *** Positions and captures *)

Record pos : Type := { prev : option ascii; rest : text; idx : nat }.

Definition start_pos (s : text) : pos := {| prev := None; rest := s; idx := 0 |}.

Definition caps := list (nat * (nat * nat)).

Definition word_opt (o : option ascii) : bool :=
  match o with Some c => isword c | None => false end.

Definition at_boundary (p : pos) : bool :=
  xorb (word_opt (prev p)) (word_opt (hd_error (rest p))).

Definition at_bol (fl : flags) (p : pos) : bool :=
  match prev p with
  | None => true
  | Some c => multiline fl && Ascii.eqb c nl
  end.

Definition at_eol (fl : flags) (p : pos) : bool :=
  match rest p with
  | [] => true
  | c :: r => Ascii.eqb c nl && (multiline fl || match r with [] => true | _ => false end)
  end.

(** One character, when it passes [ok]. *)
Definition eat (ok : ascii -> bool) (p : pos) : option pos :=
  match rest p with
  | c :: r => if ok c then Some {| prev := Some c; rest := r; idx := S (idx p) |} else None
  | [] => None
  end.

Definition reached (hi : option nat) (n : nat) : bool :=
  match hi with Some h => h <=? n | None => false end.

(** *** The backtracking matcher

    [m fl r p c k] matches [r] at [p] and hands the position after it to
    the continuation [k]; a [None] from [k] makes the matcher try its next
    choice.  A repetition tries one more round before it tries to stop
    (greedy), and a round has to consume input. *)
Section Matcher.
Variable fl : flags.
Variable A : Type.

Fixpoint m (r : re) : pos -> caps -> (pos -> caps -> option A) -> option A :=
  match r with
  | Eps => fun p c k => k p c
  | Lit x => fun p c k =>
      match eat (lit_match fl x) p with Some p' => k p' c | None => None end
  | Dot => fun p c k =>
      match eat (fun ch => negb (Ascii.eqb ch nl)) p with Some p' => k p' c | None => None end
  | Cls neg items => fun p c k =>
      match eat (cls_match fl neg items) p with Some p' => k p' c | None => None end
  | Cat a b => fun p c k => m a p c (fun p' c' => m b p' c' k)
  | Alt a b => fun p c k =>
      match m a p c k with Some x => Some x | None => m b p c k end
  | Rep r' lo hi => fun p c k =>
      (fix loop (fuel n : nat) (p : pos) (c : caps) {struct fuel} : option A :=
         let stop := if lo <=? n then k p c else None in
         match fuel with
         | O => stop
         | S fuel' =>
             if reached hi n then stop
             else match m r' p c (fun p' c' =>
                            if length (rest p') <? length (rest p)
                            then loop fuel' (S n) p' c' else None) with
                  | Some x => Some x
                  | None => stop
                  end
         end) (S (length (rest p))) 0 p c
  | Grp g r' => fun p c k =>
      m r' p c (fun p' c' => k p' ((g, (idx p, idx p')) :: c'))
  | Bnd => fun p c k => if at_boundary p then k p c else None
  | Bol => fun p c k => if at_bol fl p then k p c else None
  | Eol => fun p c k => if at_eol fl p then k p c else None
  | Bad => fun _ _ _ => None
  end.
End Matcher.

Record rmatch : Type := { m_start : nat; m_end : nat; m_caps : caps }.

(** The match of [r] that starts exactly at [p]. *)
Definition match_here (fl : flags) (r : re) (p : pos) : option rmatch :=
  m fl r p [] (fun p' c => Some {| m_start := idx p; m_end := idx p'; m_caps := c |}).

(** The leftmost match at or after the position [(pv, s, i)]. *)
Fixpoint search_from (fl : flags) (r : re) (pv : option ascii) (s : text) (i : nat)
  : option rmatch :=
  match match_here fl r {| prev := pv; rest := s; idx := i |} with
  | Some mt => Some mt
  | None =>
      match s with
      | [] => None
      | ch :: s' => search_from fl r (Some ch) s' (S i)
      end
  end.

(** Moving a position forward to the index [target]. *)
Fixpoint seek (n : nat) (p : pos) : option pos :=
  match n with
  | O => Some p
  | S n' => match eat (fun _ => true) p with Some p' => seek n' p' | None => None end
  end.

(** The successive matches, none overlapping another: the scan resumes
    where the last match ended, one character further after an empty
    match. *)
Fixpoint scan (fl : flags) (r : re) (fuel : nat) (p : pos) : list rmatch :=
  match fuel with
  | O => []
  | S fuel' =>
      match search_from fl r (prev p) (rest p) (idx p) with
      | None => []
      | Some mt =>
          let next := if m_end mt =? m_start mt then S (m_end mt) else m_end mt in
          mt :: match seek (next - idx p) p with
                | Some p' => scan fl r fuel' p'
                | None => []
                end
      end
  end.

(** *** Parsing a pattern *)

Definition digit_val (c : ascii) : nat := nat_of_ascii c - 48.

Fixpoint read_nat (acc : nat) (s : text) : nat * text :=
  match s with
  | c :: r => if isdigit c then read_nat (10 * acc + digit_val c) r else (acc, s)
  | [] => (acc, s)
  end.

Definition is_punct (c : ascii) : bool :=
  let n := nat_of_ascii c in
  negb (between 48 57 n || between 65 90 n || between 97 122 n) && (n <? 128).

(** The meaning of [\c]. *)
Definition escape (c : ascii) : option re :=
  if Ascii.eqb c "b" then Some Bnd
  else if Ascii.eqb c "w" then Some (Cls false [CWord])
  else if Ascii.eqb c "W" then Some (Cls true [CWord])
  else if Ascii.eqb c "s" then Some (Cls false [CSpace])
  else if Ascii.eqb c "S" then Some (Cls true [CSpace])
  else if Ascii.eqb c "d" then Some (Cls false [CDigit])
  else if Ascii.eqb c "D" then Some (Cls true [CDigit])
  else if Ascii.eqb c "n" then Some (Lit nl)
  else if Ascii.eqb c "t" then Some (Lit "009")
  else if Ascii.eqb c "r" then Some (Lit "013")
  else if is_punct c then Some (Lit c)
  else None.

(** The meaning of [\c] between brackets. *)
Definition class_escape (c : ascii) : option citem :=
  if Ascii.eqb c "w" then Some CWord
  else if Ascii.eqb c "s" then Some CSpace
  else if Ascii.eqb c "d" then Some CDigit
  else if Ascii.eqb c "n" then Some (CChar nl)
  else if Ascii.eqb c "t" then Some (CChar "009")
  else if is_punct c then Some (CChar c)
  else None.

(** The items of a class, up to the closing bracket. *)
Fixpoint parse_class (fuel : nat) (s : text) : option (list citem * text) :=
  match fuel with
  | O => None
  | S f =>
      match s with
      | [] => None
      | "]"%char :: r => Some ([], r)
      | "\"%char :: c :: r =>
          match class_escape c, parse_class f r with
          | Some it, Some (its, r') => Some (it :: its, r')
          | _, _ => None
          end
      | a :: "-"%char :: b :: r =>
          if Ascii.eqb b "]" then
            match parse_class f ("-"%char :: b :: r) with
            | Some (its, r') => Some (CChar a :: its, r')
            | None => None
            end
          else
            match parse_class f r with
            | Some (its, r') => Some (CRange a b :: its, r')
            | None => None
            end
      | a :: r =>
          match parse_class f r with
          | Some (its, r') => Some (CChar a :: its, r')
          | None => None
          end
      end
  end.

Definition no_quantifier (s : text) : bool :=
  match s with
  | c :: _ => negb (Ascii.eqb c "?" || Ascii.eqb c "*" || Ascii.eqb c "+")
  | [] => true
  end.

(** A quantifier after the atom [a], when there is one.  A brace that
    does not open [{m}], [{m,}] or [{m,n}] is left for the next atom. *)
Definition parse_quant (a : re) (s : text) : option (re * text) :=
  let done (q : re) (r : text) := if no_quantifier r then Some (q, r) else None in
  match s with
  | "*"%char :: r => done (Rep a 0 None) r
  | "+"%char :: r => done (Rep a 1 None) r
  | "?"%char :: r => done (Rep a 0 (Some 1)) r
  | "{"%char :: r =>
      match r with
      | d :: _ =>
          if isdigit d then
            let (lo, r1) := read_nat 0 r in
            match r1 with
            | "}"%char :: r2 => done (Rep a lo (Some lo)) r2
            | ","%char :: "}"%char :: r2 => done (Rep a lo None) r2
            | ","%char :: r2 =>
                let (hi, r3) := read_nat 0 r2 in
                match r2, r3 with
                | d2 :: _, "}"%char :: r4 =>
                    if isdigit d2 then done (Rep a lo (Some hi)) r4 else Some (a, s)
                | _, _ => Some (a, s)
                end
            | _ => Some (a, s)
            end
          else Some (a, s)
      | [] => Some (a, s)
      end
  | _ => Some (a, s)
  end.

(** Alternatives, sequences and atoms; [g] counts the groups opened so
    far, and a group takes the next number when its parenthesis opens. *)
Fixpoint parse_alt (fuel : nat) (s : text) (g : nat) : option (re * text * nat) :=
  match fuel with
  | O => None
  | S f =>
      match parse_seq f s g with
      | Some (a, "|"%char :: s1, g1) =>
          match parse_alt f s1 g1 with
          | Some (b, s2, g2) => Some (Alt a b, s2, g2)
          | None => None
          end
      | other => other
      end
  end
with parse_seq (fuel : nat) (s : text) (g : nat) : option (re * text * nat) :=
  match fuel with
  | O => None
  | S f =>
      match s with
      | [] => Some (Eps, s, g)
      | "|"%char :: _ => Some (Eps, s, g)
      | ")"%char :: _ => Some (Eps, s, g)
      | _ =>
          match parse_atom f s g with
          | Some (a, s1, g1) =>
              match parse_quant a s1 with
              | Some (q, s2) =>
                  match parse_seq f s2 g1 with
                  | Some (Eps, s3, g3) => Some (q, s3, g3)
                  | Some (b, s3, g3) => Some (Cat q b, s3, g3)
                  | None => None
                  end
              | None => None
              end
          | None => None
          end
      end
  end
with parse_atom (fuel : nat) (s : text) (g : nat) : option (re * text * nat) :=
  match fuel with
  | O => None
  | S f =>
      match s with
      | [] => None
      | "("%char :: "?"%char :: ":"%char :: s1 =>
          match parse_alt f s1 g with
          | Some (r, ")"%char :: s2, g2) => Some (r, s2, g2)
          | _ => None
          end
      | "("%char :: "?"%char :: _ => None
      | "("%char :: s1 =>
          match parse_alt f s1 (S g) with
          | Some (r, ")"%char :: s2, g2) => Some (Grp (S g) r, s2, g2)
          | _ => None
          end
      | "["%char :: "^"%char :: s1 =>
          match parse_class (S (length s1)) s1 with
          | Some (its, s2) => Some (Cls true its, s2, g)
          | None => None
          end
      | "["%char :: s1 =>
          match parse_class (S (length s1)) s1 with
          | Some (its, s2) => Some (Cls false its, s2, g)
          | None => None
          end
      | "\"%char :: c :: s1 =>
          match escape c with Some r => Some (r, s1, g) | None => None end
      | "\"%char :: [] => None
      | "."%char :: s1 => Some (Dot, s1, g)
      | "^"%char :: s1 => Some (Bol, s1, g)
      | "$"%char :: s1 => Some (Eol, s1, g)
      | "*"%char :: _ => None
      | "+"%char :: _ => None
      | "?"%char :: _ => None
      | c :: s1 => Some (Lit c, s1, g)
      end
  end.

Definition parse (p : text) : option re :=
  match parse_alt (4 * length p + 4) p 0 with
  | Some (r, [], _) => Some r
  | _ => None
  end.

(** [re.compile] of the pattern with the text [p]; a pattern that Python
    rejects becomes [Bad]. *)
Definition compile_text (p : text) : re :=
  match parse p with Some r => r | None => Bad end.

Definition compile (p : string) : re := compile_text (str p).

(** *** The functions of the module *)

(** [re.search(p, s, flags)] *)
Definition search (fl : flags) (r : re) (s : text) : option rmatch :=
  search_from fl r None s 0.

(** [re.match(p, s, flags)] *)
Definition match_ (fl : flags) (r : re) (s : text) : option rmatch :=
  match_here fl r (start_pos s).

(** [re.finditer(p, s, flags)] *)
Definition finditer (fl : flags) (r : re) (s : text) : list rmatch :=
  scan fl r (S (length s)) (start_pos s).

(** [m.group(g)]; a group that took no part in the match gives [""]. *)
Definition group (s : text) (mt : rmatch) (g : nat) : text :=
  match g with
  | O => slice s (m_start mt) (m_end mt)
  | _ =>
      match find (fun e => fst e =? g) (m_caps mt) with
      | Some (_, (a, b)) => slice s a b
      | None => []
      end
  end.

(** [re.findall(p, s, flags)] for a pattern with one group, or with none
    ([g = 0]). *)
Definition findall (fl : flags) (r : re) (g : nat) (s : text) : list text :=
  map (fun mt => group s mt g) (finditer fl r s).

(** [len(re.findall(p, s, flags))] *)
Definition count (fl : flags) (r : re) (s : text) : nat :=
  length (finditer fl r s).

(** [bool(re.search(p, s, flags))] *)
Definition found (fl : flags) (r : re) (s : text) : bool :=
  match search fl r s with Some _ => true | None => false end.

End Re.

(** ** Python dictionaries *)

Module PyDict.
Import PyStr.

(** A [dict] with [str] keys, in insertion order. *)
Definition dict (V : Type) := list (text * V).

(** [d[k] = v]: a key already present keeps its place. *)
Fixpoint set (V : Type) (d : dict V) (k : text) (v : V) : dict V :=
  match d with
  | [] => [(k, v)]
  | (k', v') :: d' =>
      if text_eqb k' k then (k', v) :: d' else (k', v') :: set d' k v
  end.

(** [d.get(k, default)] *)
Fixpoint get (V : Type) (d : dict V) (k : text) (default : V) : V :=
  match d with
  | [] => default
  | (k', v') :: d' => if text_eqb k' k then v' else get d' k default
  end.

Definition keys (V : Type) (d : dict V) : list text := map fst d.
Definition values (V : Type) (d : dict V) : list V := map snd d.

(** [k in xs] for a collection of strings. *)
Definition mem (k : text) (xs : list text) : bool := existsb (text_eqb k) xs.

(** [Counter(xs)]: every element counted, in the order of first
    occurrence. *)
Definition Counter (xs : list text) : dict nat :=
  fold_left (fun d x => set d x (S (get d x O))) xs [].

End PyDict.

(** ** The analyzer *)

Module CodeMetrics.
Import PyStr PyNum PyDict.

Local Open Scope Z_scope.

(** *** Framework definitions *)

Definition JUNIT5_ANNOTATIONS : list text := map str
  ["@Test"; "@BeforeEach"; "@AfterEach"; "@BeforeAll"; "@AfterAll";
   "@DisplayName"; "@Nested"; "@Disabled"; "@ParameterizedTest";
   "@RepeatedTest"; "@TestFactory"; "@TestTemplate"; "@Timeout"]%string.

Definition SPRING_TEST_ANNOTATIONS : list text := map str
  ["@SpringBootTest"; "@WebMvcTest"; "@DataJpaTest"; "@AutoConfigureMockMvc";
   "@MockBean"; "@SpyBean"; "@ActiveProfiles"; "@TestConfiguration";
   "@WithMockUser"; "@WithAnonymousUser"]%string.

Definition VALID_ASSERT_METHODS : list text := map str
  ["assertEquals"; "assertNotEquals"; "assertTrue"; "assertFalse";
   "assertNull"; "assertNotNull"; "assertThrows"; "assertDoesNotThrow";
   "assertAll"; "assertArrayEquals"; "assertIterableEquals";
   "assertLinesMatch"; "assertTimeout"; "assertTimeoutPreemptively";
   "fail";
   "andExpect"; "andDo"; "andReturn";
   "assertThat";
   "assertThat"; "isEqualTo"; "isNotNull"; "isNull"; "isTrue"; "isFalse";
   "hasSize"; "contains"; "containsExactly"]%string.

(** *** Data classes for metrics *)

Record SizeMetrics : Type := {
  total_lines : Z;
  logical_loc : Z;
  blank_lines : Z;
  comment_lines : Z;
  comment_ratio : Q }.

Record ComplexityMetrics : Type := {
  cyclomatic_complexity : dict Z;
  avg_cyclomatic : Q;
  max_cyclomatic : Z;
  cognitive_complexity : dict Z;
  avg_cognitive : Q;
  max_cognitive : Z;
  maintainability_index : R }.

Record TestMetrics : Type := {
  test_method_count : Z;
  nested_class_count : Z;
  assert_count : Z;
  asserts_per_test : Q;
  long_tests : list (text * nat);
  long_test_count : Z;
  aaa_organized_count : Z;
  aaa_percentage : Q;
  tests_with_exception_handling : Z;
  exception_handling_percentage : Q;
  exception_handling_needed : bool }.

Record DuplicationMetrics : Type := {
  duplicate_segments : Z;
  duplicate_lines : Z;
  duplicate_percentage : Q;
  duplicated_blocks : list text }.

(** The smell records, one constructor for each ['type']. *)
Inductive smell : Type :=
| Long_Method (location : text) (lines : nat)
| Too_Many_Parameters (location : text)
| Magic_Number (detail : text)
| Deep_Nesting (max_depth : Z)
| Wildcard_Import (count : Z).

Record CodeSmellMetrics : Type := {
  code_smell_count : Z;
  code_smells : list smell;
  todo_fixme_count : Z;
  wildcard_imports : Z;
  dead_code_percentage : Q;
  dead_code_items : list text }.

(** The violation records, one constructor for each ['rule']. *)
Inductive violation : Type :=
| Class_naming (name : text)
| Method_naming (name : text)
| Constant_naming (name : text)
| Line_length (line : nat) (len : nat).

Record ConventionMetrics : Type := {
  follows_conventions : bool;
  convention_violations : list violation;
  violation_count : Z }.

Record FrameworkMetrics : Type := {
  framework_keyword_violations : Z;
  invalid_assertions : list text;
  non_framework_methods : list text;
  valid_framework_assertions : bool }.

Record TypeMetrics : Type := {
  type_errors : Z;
  undefined_variables : list text;
  type_annotation_errors : Z;
  generic_type_misuses : list text }.

Inductive syntax_error : Type :=
| Unbalanced_braces (open close : nat)
| Unbalanced_parentheses (open close : nat)
| Possible_missing_semicolon (line : nat).

Inductive lint : Type :=
| Trailing_whitespace (line : nat)
| Multiple_consecutive_empty_lines (line : nat)
| Missing_space_after_keyword (line : nat).

Record SyntaxMetrics : Type := {
  syntax_errors : Z;
  syntax_error_details : list syntax_error;
  linting_violations : Z;
  linting_details : list lint }.

Record DesignPatternMetrics : Type := {
  adheres_to_patterns : bool;
  patterns_detected : list text;
  pattern_violations : list text }.

Module All.
Record AllMetrics : Type := {
  file_name : text;
  size : SizeMetrics;
  complexity : ComplexityMetrics;
  test : TestMetrics;
  duplication : DuplicationMetrics;
  code_smells : CodeSmellMetrics;
  conventions : ConventionMetrics;
  framework : FrameworkMetrics;
  types : TypeMetrics;
  syntax : SyntaxMetrics;
  design_patterns : DesignPatternMetrics }.
End All.

(** [len(x)] as an [int] *)
Definition len (X : Type) (l : list X) : Z := Z.of_nat (length l).

(** [enumerate(xs)], with the line number [i + 1] in place of [i]. *)
Definition numbered (X : Type) (xs : list X) : list (nat * X) :=
  combine (seq 1 (length xs)) xs.

(** [len([l for l in body.split('\n') if l.strip()])] *)
Definition nonblank_lines (body : text) : nat :=
  length (filter (fun l => negb (text_eqb (strip l) [])) (split nl body)).

(** *** Helper methods *)

Record scan_state : Type := { depth : Z; end_ : nat; broke : bool }.

(** One round of the loop of [_extract_block], at the index [i] where
    the character is [ch]. *)
Definition block_step (st : scan_state) (i : nat) (ch : ascii) : scan_state :=
  if Ascii.eqb ch "{" then
    {| depth := depth st + 1; end_ := end_ st; broke := false |}
  else if Ascii.eqb ch "}" then
    let d := depth st - 1 in
    if d =? 0 then {| depth := d; end_ := S i; broke := true |}
    else {| depth := d; end_ := end_ st; broke := false |}
  else st.

(** [for i in range(i, len(content))], with [cs] the text [content[i:]];
    the loop leaves at the [break]. *)
Fixpoint block_loop (st : scan_state) (i : nat) (cs : text) : scan_state :=
  match cs with
  | [] => st
  | ch :: r =>
      let st' := block_step st i ch in
      if broke st' then st' else block_loop st' (S i) r
  end.

(** The states of the loop after each of its rounds. *)
Fixpoint block_trace (st : scan_state) (i : nat) (cs : text) : list scan_state :=
  match cs with
  | [] => []
  | ch :: r =>
      let st' := block_step st i ch in
      st' :: if broke st' then [] else block_trace st' (S i) r
  end.

Definition block_init (start_brace : nat) : scan_state :=
  {| depth := 0; end_ := start_brace; broke := false |}.

Definition _extract_block (content : text) (start_brace : nat) : text :=
  let st := block_loop (block_init start_brace) start_brace (skipn start_brace content) in
  slice content start_brace (end_ st).

Definition methods_pattern : string :=
  "(?:@\w+(?:\([^)]*\))?\s*)*(?:public|private|protected)?\s*(?:static\s+)?(?:final\s+)?[\w<>,\[\]\s]+\s+(\w+)\s*\([^)]*\)\s*(?:throws\s+[\w,\s]+)?\s*\{".

Definition test_methods_pattern : string :=
  "@Test\s*(?:\([^)]*\))?\s*(?:@\w+(?:\([^)]*\))?\s*)*(?:public|private|protected)?\s*(?:void\s+)?(\w+)\s*\([^)]*\)\s*(?:throws\s+[\w,\s]+)?\s*\{".

(** The loop shared by [_extract_methods] and [_extract_test_methods]. *)
Definition extract_with (pattern : string) (content : text) : dict text :=
  fold_left
    (fun methods mt =>
       let name := Re.group content mt 1 in
       let start := (Re.m_end mt - 1)%nat in
       let body := _extract_block content start in
       set methods name body)
    (Re.finditer Re.no_flags (Re.compile pattern) content) [].

Definition _extract_methods (content : text) : dict text :=
  extract_with methods_pattern content.

Definition _extract_test_methods (content : text) : dict text :=
  extract_with test_methods_pattern content.

(** The analyzer object after [__init__]. *)
Record JavaTestAnalyzer : Type := {
  content : text;
  lines : list text;
  methods : dict text;
  test_methods : dict text }.

Definition init (file_content : text) : JavaTestAnalyzer :=
  {| content := file_content;
     lines := split nl file_content;
     methods := _extract_methods file_content;
     test_methods := _extract_test_methods file_content |}.

(** *** Size metrics *)

Definition _is_comment_line (line : text) : bool :=
  let stripped := strip line in
  startswith stripped (str "//") || startswith stripped (str "/*")
  || startswith stripped (str "*") || startswith stripped (str "*/").

Definition is_blank (line : text) : bool := text_eqb (strip line) [].

Definition _analyze_size (self : JavaTestAnalyzer) : SizeMetrics :=
  let total := len (lines self) in
  let blank := len (filter is_blank (lines self)) in
  let comment := len (filter _is_comment_line (lines self)) in
  {| total_lines := total;
     blank_lines := blank;
     comment_lines := comment;
     logical_loc := total - blank - comment;
     comment_ratio :=
       if total >? 0
       then round1 (inject_Z comment / inject_Z total * 100)%Q
       else 0%Q |}.
(** *** Complexity metrics *)

Definition cyclomatic_patterns : list string :=
  ["\bif\b"; "\belse\s+if\b"; "\bfor\b"; "\bwhile\b";
   "\bcase\b"; "\bcatch\b"; "\b\?\s*:"; "\b&&\b"; "\b\|\|\b"]%string.

(** CC = E - N + 2P, simplified: 1 + decision points *)
Definition _calc_cyclomatic (code : text) : Z :=
  fold_left
    (fun count p => count + Z.of_nat (Re.count Re.no_flags (Re.compile p) code))
    cyclomatic_patterns 1.

(** One line of [_calc_cognitive]; the state is [(score, nesting)]. *)
Definition cognitive_line (st : Z * Z) (line : text) : Z * Z :=
  let '(score, nesting) := st in
  let stripped := strip line in
  let '(score, nesting) :=
    if Re.found Re.no_flags (Re.compile "\b(if|for|while|switch|try)\b") stripped then
      (score + (1 + nesting),
       if existsb (Ascii.eqb "{") stripped then nesting + 1 else nesting)
    else if Re.found Re.no_flags (Re.compile "\b(else|catch|finally)\b") stripped then
      (score + 1, nesting)
    else (score, nesting) in
  let nesting := if text_eqb stripped (str "}") then Z.max 0 (nesting - 1) else nesting in
  (score + Z.of_nat (Re.count Re.no_flags (Re.compile "&&|\|\|") stripped), nesting).

(** Cognitive complexity: nesting increases weight *)
Definition _calc_cognitive (code : text) : Z :=
  fst (fold_left cognitive_line (split nl code) (0, 0)).

Definition sum (values : list Z) : Z := fold_left Z.add values 0.

(** [max(values)] for a list that is not empty. *)
Definition max_of (values : list Z) : Z :=
  match values with
  | [] => 0
  | v :: vs => fold_left Z.max vs v
  end.

(** [round(sum(values) / len(values), 1)] *)
Definition average (values : list Z) : Q :=
  round1 (inject_Z (sum values) / inject_Z (len values))%Q.

(** [math.log(x)] and [math.log2(x)]: a [ValueError] unless [0 < x]. *)
Definition math_log (x : R) : option R :=
  if Rle_dec x 0 then None else Some (ln x).

Definition math_log2 (x : R) : option R :=
  if Rle_dec x 0 then None else Some (ln x / ln 2)%R.

(** [round(x, 1)] on a real number. *)
Definition round1_R (x : R) : R :=
  let t := (x * 10)%R in
  let fl := Int_part t in
  let fr := frac_part t in
  let n := if Rlt_dec fr (1 / 2) then fl
           else if Rlt_dec (1 / 2) fr then fl + 1
           else if Z.even fl then fl else fl + 1 in
  (IZR n / 10)%R.

(** [len(set(self.content.split()))] *)
Definition distinct_tokens (content : text) : nat :=
  length (nodup (list_eq_dec ascii_dec) (split_ws content)).

(** The arguments that the maintainability index takes logarithms of. *)
Definition mi_loc (size : SizeMetrics) : Z := Z.max (logical_loc size) 1.
Definition mi_tokens (content : text) : Z := Z.max (Z.of_nat (distinct_tokens content)) 1.

(** Maintainability Index: MI = 171 - 5.2*ln(V) - 0.23*G - 16.2*ln(LOC) *)
Definition maintainability (self : JavaTestAnalyzer) (size : SizeMetrics) (avg : Q)
  : option R :=
  let loc := mi_loc size in
  let avg_cc := Qmax avg 1 in
  match math_log2 (IZR (mi_tokens (content self))) with
  | None => None
  | Some l2 =>
      let halstead_volume := (IZR loc * l2)%R in
      match math_log halstead_volume, math_log (IZR loc) with
      | Some ln_v, Some ln_loc =>
          let mi := (171 - 5.2 * ln_v - 0.23 * Q2R avg_cc - 16.2 * ln_loc)%R in
          Some (round1_R (Rmax 0 (Rmin 100 (mi * 100 / 171))))
      | _, _ => None
      end
  end.

(** The part of [_analyze_complexity] before the maintainability index. *)
Definition complexity_of_methods (self : JavaTestAnalyzer) : ComplexityMetrics :=
  let cc := fold_left (fun d nb => set d (fst nb) (_calc_cyclomatic (snd nb)))
                      (methods self) [] in
  let cog := fold_left (fun d nb => set d (fst nb) (_calc_cognitive (snd nb)))
                       (methods self) [] in
  {| cyclomatic_complexity := cc;
     avg_cyclomatic := match cc with [] => 0%Q | _ => average (values cc) end;
     max_cyclomatic := match cc with [] => 0 | _ => max_of (values cc) end;
     cognitive_complexity := cog;
     avg_cognitive := match cog with [] => 0%Q | _ => average (values cog) end;
     max_cognitive := match cog with [] => 0 | _ => max_of (values cog) end;
     maintainability_index := 0%R |}.

Definition _analyze_complexity (self : JavaTestAnalyzer) (size : SizeMetrics)
  : option ComplexityMetrics :=
  let m := complexity_of_methods self in
  match maintainability self size (avg_cyclomatic m) with
  | None => None
  | Some mi =>
      Some {| cyclomatic_complexity := cyclomatic_complexity m;
              avg_cyclomatic := avg_cyclomatic m;
              max_cyclomatic := max_cyclomatic m;
              cognitive_complexity := cognitive_complexity m;
              avg_cognitive := avg_cognitive m;
              max_cognitive := max_cognitive m;
              maintainability_index := mi |}
  end.

(** *** Test metrics *)

Definition assertion_patterns : list string :=
  ["assert\w+\s*\("; "\.andExpect\s*\("; "assertThat\s*\("; "verify\s*\(";
   "\.is\w+\s*\("]%string.

Definition _count_assertions (self : JavaTestAnalyzer) : Z :=
  fold_left
    (fun count p => count + Z.of_nat (Re.count Re.no_flags (Re.compile p) (content self)))
    assertion_patterns 0.

(** Check for AAA (Arrange/Act/Assert) or GWT (Given/When/Then) organization *)
Definition _count_aaa_organized (self : JavaTestAnalyzer) : Z :=
  fold_left
    (fun count nb =>
       let body := snd nb in
       let has_aaa :=
         Re.found Re.I (Re.compile "//\s*(arrange|act|assert|given|when|then)") body in
       let has_structure :=
         Re.found Re.no_flags (Re.compile "(=\s*new\s+|@Autowired|mock\()") body
         && Re.found Re.no_flags (Re.compile "\.(perform|execute|call|invoke|get|post|put)") body
         && Re.found Re.no_flags (Re.compile "(assert|verify|andExpect)") body in
       if has_aaa || has_structure then count + 1 else count)
    (test_methods self) 0.

(** [round(a / max(b, 1) * 100, 1)] *)
Definition percent (a b : Z) : Q :=
  round1 (inject_Z a / inject_Z (Z.max b 1) * 100)%Q.

Definition _analyze_tests (self : JavaTestAnalyzer) : TestMetrics :=
  let count := len (test_methods self) in
  let asserts := _count_assertions self in
  let long :=
    flat_map (fun nb =>
                let line_count := nonblank_lines (snd nb) in
                if (20 <? line_count)%nat then [(fst nb, line_count)] else [])
             (test_methods self) in
  let aaa := _count_aaa_organized self in
  let handled :=
    len (filter (fun nb =>
                   Re.found Re.no_flags
                     (Re.compile "throws\s+\w+|try\s*\{|assertThrows") (snd nb))
                (test_methods self)) in
  {| test_method_count := count;
     nested_class_count := Z.of_nat (Re.count Re.no_flags (Re.compile "@Nested") (content self));
     assert_count := asserts;
     asserts_per_test := round1 (inject_Z asserts / inject_Z (Z.max count 1))%Q;
     long_tests := long;
     long_test_count := len long;
     aaa_organized_count := aaa;
     aaa_percentage := percent aaa count;
     tests_with_exception_handling := handled;
     exception_handling_percentage := percent handled count;
     exception_handling_needed :=
       Re.found Re.no_flags
         (Re.compile "\.perform\(|mockMvc|WebTestClient|RestTemplate|throws\s+Exception")
         (content self) |}.

(** *** Duplication metrics *)

(** The test that admits a line to [meaningful_lines]. *)
Definition is_meaningful (line : text) : bool :=
  let stripped := strip line in
  (15 <? length stripped)%nat
  && negb (_is_comment_line line)
  && negb (startswith stripped (str "import"))
  && negb (startswith stripped (str "package"))
  && negb (mem stripped (map str ["{"; "}"; "});"; ""]%string)).

(** [meaningful_lines], as pairs of a line number and the stripped line. *)
Definition meaningful_lines (self : JavaTestAnalyzer) : list (nat * text) :=
  flat_map (fun il => if is_meaningful (snd il) then [(fst il, strip (snd il))] else [])
           (numbered (lines self)).

(** [{line: count for line, count in line_counts.items() if count > 1}] *)
Definition duplicates_of (line_counts : dict nat) : dict nat :=
  filter (fun lc => (1 <? snd lc)%nat) line_counts.

Definition _analyze_duplication (self : JavaTestAnalyzer) : DuplicationMetrics :=
  let meaningful := meaningful_lines self in
  let line_counts := Counter (map snd meaningful) in
  let duplicates := duplicates_of line_counts in
  let dup_lines := sum (map (fun count => Z.of_nat count - 1) (values duplicates)) in
  {| duplicate_lines := dup_lines;
     duplicate_segments := len duplicates;
     duplicate_percentage := percent dup_lines (len meaningful);
     duplicated_blocks := firstn 5 (keys duplicates) |}.

(** *** Code smell metrics *)

(** Detect potentially unused private methods and variables *)
Definition _detect_dead_code (self : JavaTestAnalyzer) : list text :=
  let private_methods :=
    Re.findall Re.no_flags (Re.compile "private\s+\w+\s+(\w+)\s*\(") 1 (content self) in
  let dead_methods :=
    flat_map (fun method =>
                let calls := Re.count Re.no_flags
                               (Re.compile_text (str "\b" ++ method ++ str "\s*\("))
                               (content self) in
                if (calls <=? 1)%nat then [str "Unused method: " ++ method] else [])
             private_methods in
  let private_fields :=
    Re.findall Re.no_flags
      (Re.compile "private\s+(?:final\s+)?[\w<>,\s]+\s+(\w+)\s*[;=]") 1 (content self) in
  let dead_fields :=
    flat_map (fun field =>
                let uses := Re.count Re.no_flags
                              (Re.compile_text (str "\b" ++ field ++ str "\b"))
                              (content self) in
                if (uses <=? 1)%nat then [str "Unused field: " ++ field] else [])
             private_fields in
  dead_methods ++ dead_fields.

(** The deepest running brace depth over the lines. *)
Definition max_nesting (lines : list text) : Z :=
  fst (fold_left
         (fun st line =>
            let '(max_nesting, current_nesting) := st in
            let current_nesting :=
              current_nesting
              + (Z.of_nat (count_char "{" line) - Z.of_nat (count_char "}" line)) in
            (Z.max max_nesting current_nesting, current_nesting))
         lines (0, 0)).

Definition _analyze_code_smells (self : JavaTestAnalyzer) : CodeSmellMetrics :=
  let long_methods :=
    flat_map (fun nb =>
                let lines := nonblank_lines (snd nb) in
                if (30 <? lines)%nat then [Long_Method (fst nb) lines] else [])
             (methods self) in
  let parameters :=
    map (fun mt => Too_Many_Parameters (Re.group (content self) mt 1))
        (Re.finditer Re.no_flags (Re.compile "(\w+)\s*\([^)]{100,}\)") (content self)) in
  let magic :=
    flat_map (fun mt =>
                let before := slice (content self) (Re.m_start mt - 20) (Re.m_start mt) in
                if Re.found Re.I (Re.compile "(port|year|status|code)") before then []
                else [Magic_Number (Re.group (content self) mt 1)])
             (Re.finditer Re.no_flags
                (Re.compile "[^0-9\.]([2-9]\d{2,}|[1-9]\d{3,})[^0-9\.]") (content self)) in
  let nesting := max_nesting (lines self) in
  let deep := if nesting >? 4 then [Deep_Nesting nesting] else [] in
  let wildcards :=
    Z.of_nat (Re.count Re.MULTILINE (Re.compile "^import\s+[\w.]+\.\*;") (content self)) in
  let wildcard := if wildcards >? 0 then [Wildcard_Import wildcards] else [] in
  let dead_items := _detect_dead_code self in
  let smells := long_methods ++ parameters ++ magic ++ deep ++ wildcard in
  {| todo_fixme_count :=
       Z.of_nat (Re.count Re.no_flags (Re.compile "\b(TODO|FIXME|HACK|XXX)\b") (content self));
     wildcard_imports := wildcards;
     dead_code_items := dead_items;
     dead_code_percentage := percent (len dead_items) (len (methods self));
     code_smells := smells;
     code_smell_count := len smells |}.

(** *** Convention metrics *)

Definition matches (pattern : string) (s : text) : bool :=
  match Re.match_ Re.no_flags (Re.compile pattern) s with
  | Some _ => true
  | None => false
  end.

(** The loop over [self.test_methods] that looks for [@DisplayName]
    changes nothing and is left out. *)
Definition _analyze_conventions (self : JavaTestAnalyzer) : ConventionMetrics :=
  let class_names :=
    Re.findall Re.no_flags (Re.compile "class\s+(\w+)") 1 (content self) in
  let classes :=
    flat_map (fun name =>
                if negb (matches "^[A-Z][a-zA-Z0-9]*$" name) then [Class_naming name] else [])
             class_names in
  let method_names :=
    Re.findall Re.no_flags
      (Re.compile "(?:public|private|protected)\s+\w+\s+(\w+)\s*\(") 1 (content self) in
  let meths :=
    flat_map (fun name =>
                if negb (matches "^[a-z][a-zA-Z0-9]*$" name) && negb (mem name [str "main"])
                then [Method_naming name] else [])
             method_names in
  let constants :=
    Re.findall Re.no_flags (Re.compile "static\s+final\s+\w+\s+(\w+)\s*=") 1 (content self) in
  let consts :=
    flat_map (fun name =>
                if negb (matches "^[A-Z][A-Z0-9_]*$" name) then [Constant_naming name] else [])
             constants in
  let long_lines :=
    flat_map (fun il =>
                if (120 <? length (snd il))%nat then [Line_length (fst il) (length (snd il))]
                else [])
             (numbered (lines self)) in
  let violations := classes ++ meths ++ consts ++ long_lines in
  {| convention_violations := violations;
     violation_count := len violations;
     follows_conventions := len violations =? 0 |}.

(** *** Framework metrics *)

Definition startswith_any (s : text) (prefixes : list string) : bool :=
  existsb (fun p => startswith s (str p)) prefixes.

Definition endswith_any (s : text) (suffixes : list string) : bool :=
  existsb (fun p => endswith s (str p)) suffixes.

(** Get the lines around a method definition *)
Definition _get_method_context (self : JavaTestAnalyzer) (method_name : text) : text :=
  let pattern := Re.compile_text (str "(\w+\s+)+" ++ method_name ++ str "\s*\(") in
  match Re.search Re.no_flags pattern (content self) with
  | Some mt => slice (content self) (Re.m_start mt - 100) (Re.m_end mt)
  | None => []
  end.

(** The names are visited in the order of [self.methods]; Python visits
    the set [all_methods - test_methods] in an order of its own. *)
Definition _analyze_framework (self : JavaTestAnalyzer) : FrameworkMetrics :=
  let used_annotations :=
    nodup (list_eq_dec ascii_dec)
          (Re.findall Re.no_flags (Re.compile "@(\w+)") 1 (content self)) in
  let known := JUNIT5_ANNOTATIONS ++ SPRING_TEST_ANNOTATIONS in
  let valid_annotations :=
    map (filter (fun ch => negb (Ascii.eqb ch "@"))) known in
  let violations :=
    len (filter (fun annotation =>
                   startswith_any annotation ["Test"; "Before"; "After"; "Mock"; "Spring"]%string
                   && (negb (mem annotation valid_annotations)
                       && negb (mem (str "@" ++ annotation) known)))
                used_annotations) in
  let assert_calls :=
    Re.findall Re.no_flags (Re.compile "(assert\w+|verify\w*)\s*\(") 1 (content self) in
  let invalid :=
    filter (fun call => negb (mem call VALID_ASSERT_METHODS)
                        && negb (startswith call (str "assert")))
           assert_calls in
  let all_methods := keys (methods self) in
  let test_names := keys (test_methods self) in
  let others :=
    filter (fun name =>
              negb (mem name test_names)
              && negb (Re.found Re.no_flags
                         (Re.compile "@(BeforeEach|AfterEach|BeforeAll|AfterAll)")
                         (_get_method_context self name))
              && negb (startswith_any name
                         ["get"; "set"; "is"; "has"; "setup"; "teardown"; "init";
                          "create"; "build"; "mock"]%string))
           all_methods in
  {| framework_keyword_violations := violations;
     invalid_assertions := invalid;
     non_framework_methods := others;
     valid_framework_assertions := len invalid =? 0 |}.

(** *** Type metrics *)

(** The search for undefined variables collects names and reports
    nothing; [undefined_variables] stays empty. *)
Definition _analyze_types (self : JavaTestAnalyzer) : TypeMetrics :=
  let raw_types :=
    Re.findall Re.no_flags
      (Re.compile "\b(List|Map|Set|Collection|Optional)\s+\w+\s*[;=]") 1 (content self) in
  let misuses := map (fun raw => str "Raw type usage: " ++ raw) raw_types in
  let annotation_errors :=
    Z.of_nat (Re.count Re.no_flags (Re.compile "@\w+\s*\(\s*\)") (content self)) in
  {| undefined_variables := [];
     generic_type_misuses := misuses;
     type_annotation_errors := annotation_errors;
     type_errors := len misuses + annotation_errors |}.

(** *** Syntax metrics *)

Definition missing_semicolon (line : text) : bool :=
  let stripped := strip line in
  negb (text_eqb stripped [])
  && negb (endswith_any stripped ["{"; "}"; "("; ")"; ","; ";"; "*/"; "//"]%string)
  && negb (startswith_any stripped
             ["@"; "//"; "/*"; "*"; "import"; "package"; "public class"; "class"]%string)
  && negb (matches "^(public|private|protected|if|else|for|while|try|catch|finally|switch)"
                   stripped)
  && matches "^\w+\s+\w+\s*=\s*.+[^;]$" stripped.

(** The lines that are empty and follow an empty line. *)
Definition consecutive_empty (lines : list (nat * text)) : list lint :=
  fst (fold_left
         (fun st il =>
            let '(linting, prev_empty) := st in
            let is_empty := is_blank (snd il) in
            (if is_empty && prev_empty
             then linting ++ [Multiple_consecutive_empty_lines (fst il)] else linting,
             is_empty))
         lines ([], false)).

Definition _analyze_syntax (self : JavaTestAnalyzer) : SyntaxMetrics :=
  let open_braces := count_char "{" (content self) in
  let close_braces := count_char "}" (content self) in
  let braces := if negb (open_braces =? close_braces)%nat
                then [Unbalanced_braces open_braces close_braces] else [] in
  let open_parens := count_char "(" (content self) in
  let close_parens := count_char ")" (content self) in
  let parens := if negb (open_parens =? close_parens)%nat
                then [Unbalanced_parentheses open_parens close_parens] else [] in
  let semicolons :=
    flat_map (fun il => if missing_semicolon (snd il)
                        then [Possible_missing_semicolon (fst il)] else [])
             (numbered (lines self)) in
  let errors := braces ++ parens ++ semicolons in
  let trailing :=
    flat_map (fun il => if endswith (snd il) (str " ") || endswith (snd il) ["009"%char]
                        then [Trailing_whitespace (fst il)] else [])
             (numbered (lines self)) in
  let keywords :=
    flat_map (fun il => if Re.found Re.no_flags
                             (Re.compile "\b(if|for|while|switch|catch)\(") (snd il)
                        then [Missing_space_after_keyword (fst il)] else [])
             (numbered (lines self)) in
  let linting := trailing ++ consecutive_empty (numbered (lines self)) ++ keywords in
  {| syntax_errors := len errors;
     syntax_error_details := errors;
     linting_violations := len linting;
     linting_details := firstn 20 linting |}.

(** *** Design pattern metrics *)

(** [f'{n}'] *)
Definition decimal (n : nat) : text := str (NilEmpty.string_of_uint (Nat.to_uint n)).

(** [re.search(pattern, self.content)] as a condition. *)
Definition content_has (self : JavaTestAnalyzer) (pattern : string) : bool :=
  Re.found Re.no_flags (Re.compile pattern) (content self).

Definition _analyze_design_patterns (self : JavaTestAnalyzer) (test : TestMetrics)
  : DesignPatternMetrics :=
  let patterns :=
    (if content_has self "\.builder\(\)|Builder\s+\w+\s*=" then [str "Builder"] else [])
    ++ (if content_has self "Factory|create\w+\(\)" then [str "Factory"] else [])
    ++ (if content_has self "getInstance\(\)|private\s+static\s+final\s+\w+\s+INSTANCE"
        then [str "Singleton"] else [])
    ++ (if negb (Qle_bool (aaa_percentage test) 50)
        then [str "AAA (Arrange-Act-Assert)"] else [])
    ++ (if content_has self "Page\s*{|PageObject|@FindBy" then [str "Page Object"] else [])
    ++ (if content_has self "TestDataBuilder|with\w+\([^)]+\)\.build\(\)"
        then [str "Test Data Builder"] else [])
    ++ (if nested_class_count test >? 0 then [str "Nested Test Classes"] else []) in
  let violations :=
    (if (20 <? length (methods self))%nat
     then [str "Possible God Class: " ++ decimal (length (methods self)) ++ str " methods"]
     else [])
    ++ (if (nested_class_count test =? 0) && (test_method_count test >? 10)
        then [str "Consider organizing tests into @Nested classes"] else [])
    ++ (if content_has self "@Service|@Repository|@Controller"
        then [str "Production annotations in test class"] else []) in
  {| patterns_detected := patterns;
     pattern_violations := violations;
     adheres_to_patterns := (length violations =? 0)%nat |}.

(** *** The whole analysis *)

(** Run all analyses and return metrics.  The ten passes run in the
    order of the source; an exception in one of them ends the run. *)
Definition analyze (name file_content : text) : option All.AllMetrics :=
  let self := init file_content in
  let size := _analyze_size self in
  match _analyze_complexity self size with
  | None => None
  | Some complexity =>
      let test := _analyze_tests self in
      Some {| All.file_name := name;
              All.size := size;
              All.complexity := complexity;
              All.test := test;
              All.duplication := _analyze_duplication self;
              All.code_smells := _analyze_code_smells self;
              All.conventions := _analyze_conventions self;
              All.framework := _analyze_framework self;
              All.types := _analyze_types self;
              All.syntax := _analyze_syntax self;
              All.design_patterns := _analyze_design_patterns self test |}
  end.

(** *** The quality score *)

(** Complexity (max -20) *)
Definition complexity_deduction (metrics : All.AllMetrics) : Q :=
  let avg := avg_cyclomatic (All.complexity metrics) in
  if negb (Qle_bool avg 10) then Qmin 20 ((avg - 10) * 2) else 0.

(** Code smells (max -15) *)
Definition smell_deduction (metrics : All.AllMetrics) : Q :=
  inject_Z (Z.min 15 (code_smell_count (All.code_smells metrics) * 3)).

(** Duplication (max -15) *)
Definition duplication_deduction (metrics : All.AllMetrics) : Q :=
  Qmin 15 (duplicate_percentage (All.duplication metrics)).

(** Convention violations (max -10) *)
Definition convention_deduction (metrics : All.AllMetrics) : Q :=
  inject_Z (Z.min 10 (violation_count (All.conventions metrics))).

(** Long tests (max -10) *)
Definition long_test_deduction (metrics : All.AllMetrics) : Q :=
  inject_Z (Z.min 10 (long_test_count (All.test metrics) * 2)).

(** Low AAA percentage (max -10) *)
Definition aaa_deduction (metrics : All.AllMetrics) : Q :=
  if negb (Qle_bool 50 (aaa_percentage (All.test metrics))) then 10 else 0.

(** Syntax errors (max -10) *)
Definition syntax_deduction (metrics : All.AllMetrics) : Q :=
  inject_Z (Z.min 10 (syntax_errors (All.syntax metrics) * 5)).

(** Framework violations (max -10) *)
Definition framework_deduction (metrics : All.AllMetrics) : Q :=
  inject_Z (Z.min 10 (framework_keyword_violations (All.framework metrics) * 2)).

(** Calculate an overall quality score from 0-100 *)
Definition calculate_quality_score (metrics : All.AllMetrics) : Z :=
  let score := 100%Q in
  let score := (score - complexity_deduction metrics)%Q in
  let score := (score - smell_deduction metrics)%Q in
  let score := (score - duplication_deduction metrics)%Q in
  let score := (score - convention_deduction metrics)%Q in
  let score := (score - long_test_deduction metrics)%Q in
  let score := (score - aaa_deduction metrics)%Q in
  let score := (score - syntax_deduction metrics)%Q in
  let score := (score - framework_deduction metrics)%Q in
  Z.max 0 (Z.min 100 (py_int score)).

(** *** The records as the data classes build them *)

Definition default_size : SizeMetrics :=
  {| total_lines := 0; logical_loc := 0; blank_lines := 0; comment_lines := 0;
     comment_ratio := 0%Q |}.

Definition default_complexity : ComplexityMetrics :=
  {| cyclomatic_complexity := []; avg_cyclomatic := 0%Q; max_cyclomatic := 0;
     cognitive_complexity := []; avg_cognitive := 0%Q; max_cognitive := 0;
     maintainability_index := 0%R |}.

Definition default_test : TestMetrics :=
  {| test_method_count := 0; nested_class_count := 0; assert_count := 0;
     asserts_per_test := 0%Q; long_tests := []; long_test_count := 0;
     aaa_organized_count := 0; aaa_percentage := 0%Q;
     tests_with_exception_handling := 0; exception_handling_percentage := 0%Q;
     exception_handling_needed := false |}.

Definition default_duplication : DuplicationMetrics :=
  {| duplicate_segments := 0; duplicate_lines := 0; duplicate_percentage := 0%Q;
     duplicated_blocks := [] |}.

Definition default_code_smells : CodeSmellMetrics :=
  {| code_smell_count := 0; code_smells := []; todo_fixme_count := 0;
     wildcard_imports := 0; dead_code_percentage := 0%Q; dead_code_items := [] |}.

Definition default_conventions : ConventionMetrics :=
  {| follows_conventions := true; convention_violations := []; violation_count := 0 |}.

Definition default_framework : FrameworkMetrics :=
  {| framework_keyword_violations := 0; invalid_assertions := [];
     non_framework_methods := []; valid_framework_assertions := true |}.

Definition default_types : TypeMetrics :=
  {| type_errors := 0; undefined_variables := []; type_annotation_errors := 0;
     generic_type_misuses := [] |}.

Definition default_syntax : SyntaxMetrics :=
  {| syntax_errors := 0; syntax_error_details := []; linting_violations := 0;
     linting_details := [] |}.

Definition default_design_patterns : DesignPatternMetrics :=
  {| adheres_to_patterns := true; patterns_detected := []; pattern_violations := [] |}.

(** [AllMetrics()] *)
Definition default_metrics : All.AllMetrics :=
  {| All.file_name := [];
     All.size := default_size;
     All.complexity := default_complexity;
     All.test := default_test;
     All.duplication := default_duplication;
     All.code_smells := default_code_smells;
     All.conventions := default_conventions;
     All.framework := default_framework;
     All.types := default_types;
     All.syntax := default_syntax;
     All.design_patterns := default_design_patterns |}.

(** *** Output formatters *)

(** The line that [print_score_bar] prints, as its parts: the colour, the
    number of full cells and of empty cells of the bar (a one-character
    string times [n], which is empty for a negative [n]) and the score
    shown after it. *)
Record score_bar : Type := {
  color : text;
  full_cells : nat;
  empty_cells : nat;
  shown_score : Z }.

(** Print a visual score bar *)
Definition print_score_bar (score : Z) : score_bar :=
  let filled := score / 5 in
  let empty := 20 - filled in
  let color :=
    if score >=? 80 then str "green"
    else if score >=? 60 then str "orange"
    else str "red" in
  {| color := color;
     full_cells := Z.to_nat filled;
     empty_cells := Z.to_nat empty;
     shown_score := score |}.

End CodeMetrics.

(** ** Brace regions, as the specification describes them *)

Module BlockSpec.
Import PyStr.

Local Open Scope Z_scope.

Definition brace_delta (ch : ascii) : Z :=
  if Ascii.eqb ch "{" then 1 else if Ascii.eqb ch "}" then -1 else 0.

(** Opening braces minus closing braces. *)
Fixpoint brace_depth (s : text) : Z :=
  match s with
  | [] => 0
  | ch :: r => brace_delta ch + brace_depth r
  end.

(** No prefix of [s] (the empty one apart) has depth 0. *)
Definition never_closed (s : text) : bool :=
  forallb (fun n => negb (brace_depth (firstn n s) =? 0)) (seq 1 (length s)).

(** [blk] opens with a brace that its last character closes: the depth
    is positive after every proper prefix and 0 at the end. *)
Definition balanced_block (blk : text) : bool :=
  match blk with
  | [] => false
  | ch :: r =>
      Ascii.eqb ch "{"
      && (brace_depth blk =? 0)
      && forallb (fun n => 0 <? brace_depth (firstn n blk)) (seq 1 (length r))
  end.

End BlockSpec.

(** ** Records that differ in one sub-metric *)

Module ScoreSpec.
Import CodeMetrics.

(** [metrics] with its [code_smell_count] replaced by [n]. *)
Definition with_smell_count (metrics : All.AllMetrics) (n : Z) : All.AllMetrics :=
  let cs := All.code_smells metrics in
  {| All.file_name := All.file_name metrics;
     All.size := All.size metrics;
     All.complexity := All.complexity metrics;
     All.test := All.test metrics;
     All.duplication := All.duplication metrics;
     All.code_smells :=
       {| code_smell_count := n;
          code_smells := code_smells cs;
          todo_fixme_count := todo_fixme_count cs;
          wildcard_imports := wildcard_imports cs;
          dead_code_percentage := dead_code_percentage cs;
          dead_code_items := dead_code_items cs |};
     All.conventions := All.conventions metrics;
     All.framework := All.framework metrics;
     All.types := All.types metrics;
     All.syntax := All.syntax metrics;
     All.design_patterns := All.design_patterns metrics |}.

(** The sub-metrics that the score reads are all zero. *)
Definition all_zero (metrics : All.AllMetrics) : Prop :=
  (avg_cyclomatic (All.complexity metrics) == 0)%Q
  /\ code_smell_count (All.code_smells metrics) = 0%Z
  /\ (duplicate_percentage (All.duplication metrics) == 0)%Q
  /\ violation_count (All.conventions metrics) = 0%Z
  /\ long_test_count (All.test metrics) = 0%Z
  /\ (aaa_percentage (All.test metrics) == 0)%Q
  /\ syntax_errors (All.syntax metrics) = 0%Z
  /\ framework_keyword_violations (All.framework metrics) = 0%Z.

End ScoreSpec.

(** ** Duplicated lines, as the specification counts them *)

Module DuplicationSpec.
Import PyStr CodeMetrics.

Definition text_dec : forall a b : text, {a = b} + {a <> b} := list_eq_dec ascii_dec.

(** How often the text [t] occurs among [texts]. *)
Definition occurrences (texts : list text) (t : text) : nat := count_occ text_dec texts t.

(** The distinct texts that occur 2 times or more. *)
Definition recurring (texts : list text) : list text :=
  filter (fun t => (2 <=? occurrences texts t)%nat) (nodup text_dec texts).

(** The sum of [count - 1] over the recurring distinct texts. *)
Definition spec_duplicate_lines (texts : list text) : Z :=
  sum (map (fun t => (Z.of_nat (occurrences texts t) - 1)%Z) (recurring texts)).

(** The texts of the meaningful lines of a file. *)
Definition meaningful_texts (file_content : text) : list text :=
  map snd (meaningful_lines (init file_content)).

End DuplicationSpec.

(** ** Reports, as the specification describes them *)

Module ReportSpec.
Import PyStr PyDict CodeMetrics.

Local Open Scope Z_scope.

(** The number of matches of one pattern of [_calc_cyclomatic]. *)
Definition decision_points (pattern : string) (code : text) : Z :=
  Z.of_nat (Re.count Re.no_flags (Re.compile pattern) code).

(** ["\n".join(ls)] *)
Fixpoint join_lines (ls : list string) : text :=
  match ls with
  | [] => []
  | [l] => str l
  | l :: r => str l ++ nl :: join_lines r
  end.

(** Files for the examples. *)
Definition two_lines : text :=
  join_lines ["int first = compute(1);"; "int second = compute(2);"]%string.

Definition three_lines : text :=
  join_lines ["int value = compute(1);"; "int value = compute(1);";
              "int other = compute(2);"]%string.

Definition two_fields : text :=
  join_lines ["private int foo;"; "private int bar;"]%string.

(** Every numeric field 0, for each record; a list counts as its length,
    and the maintainability index is left aside. *)
Definition zero_complexity (m : ComplexityMetrics) : Prop :=
  cyclomatic_complexity m = [] /\ (avg_cyclomatic m == 0)%Q /\ max_cyclomatic m = 0
  /\ cognitive_complexity m = [] /\ (avg_cognitive m == 0)%Q /\ max_cognitive m = 0.

Definition zero_test (m : TestMetrics) : Prop :=
  test_method_count m = 0 /\ nested_class_count m = 0 /\ assert_count m = 0
  /\ (asserts_per_test m == 0)%Q /\ long_tests m = [] /\ long_test_count m = 0
  /\ aaa_organized_count m = 0 /\ (aaa_percentage m == 0)%Q
  /\ tests_with_exception_handling m = 0 /\ (exception_handling_percentage m == 0)%Q
  /\ exception_handling_needed m = false.

Definition zero_duplication (m : DuplicationMetrics) : Prop :=
  duplicate_segments m = 0 /\ duplicate_lines m = 0 /\ (duplicate_percentage m == 0)%Q
  /\ duplicated_blocks m = [].

Definition zero_code_smells (m : CodeSmellMetrics) : Prop :=
  code_smell_count m = 0 /\ code_smells m = [] /\ todo_fixme_count m = 0
  /\ wildcard_imports m = 0 /\ (dead_code_percentage m == 0)%Q /\ dead_code_items m = [].

Definition zero_conventions (m : ConventionMetrics) : Prop :=
  follows_conventions m = true /\ convention_violations m = [] /\ violation_count m = 0.

Definition zero_framework (m : FrameworkMetrics) : Prop :=
  framework_keyword_violations m = 0 /\ invalid_assertions m = []
  /\ non_framework_methods m = [] /\ valid_framework_assertions m = true.

Definition zero_types (m : TypeMetrics) : Prop :=
  type_errors m = 0 /\ undefined_variables m = [] /\ type_annotation_errors m = 0
  /\ generic_type_misuses m = [].

Definition zero_syntax (m : SyntaxMetrics) : Prop :=
  syntax_errors m = 0 /\ syntax_error_details m = [] /\ linting_violations m = 0
  /\ linting_details m = [].

Definition zero_design_patterns (m : DesignPatternMetrics) : Prop :=
  adheres_to_patterns m = true /\ patterns_detected m = [] /\ pattern_violations m = [].

(** The report of the passes on the analyzer [self], the maintainability
    index apart. *)
Definition passes_are_zero (self : JavaTestAnalyzer) : Prop :=
  zero_complexity (complexity_of_methods self)
  /\ zero_test (_analyze_tests self)
  /\ zero_duplication (_analyze_duplication self)
  /\ zero_code_smells (_analyze_code_smells self)
  /\ zero_conventions (_analyze_conventions self)
  /\ zero_framework (_analyze_framework self)
  /\ zero_types (_analyze_types self)
  /\ zero_syntax (_analyze_syntax self)
  /\ zero_design_patterns (_analyze_design_patterns self (_analyze_tests self)).

End ReportSpec.

(** ** The matches behind the method maps *)

Module MethodSpec.
Import PyStr PyDict CodeMetrics.

Local Open Scope nat_scope.

(** The name and the body that one match of the signature pattern gives. *)
Definition match_name (content : text) (mt : Re.rmatch) : text := Re.group content mt 1.

Definition match_body (content : text) (mt : Re.rmatch) : text :=
  _extract_block content (Re.m_end mt - 1).

Definition record_match (content : text) (methods : dict text) (mt : Re.rmatch) : dict text :=
  set methods (match_name content mt) (match_body content mt).

(** [s.count(ch)] as an [int] *)
Definition zcount (ch : ascii) (s : text) : Z := Z.of_nat (count_char ch s).

End MethodSpec.

(** * Properties *)

Unset Implicit Arguments.

(** ** Strings and lists *)

Module StrFacts.
Import PyStr.

Lemma text_eqb_eq (a b : text) : text_eqb a b = true <-> a = b.
Proof.
  unfold text_eqb. destruct (list_eq_dec ascii_dec a b); split; congruence.
Qed.

Lemma text_eqb_refl (a : text) : text_eqb a a = true.
Proof. apply text_eqb_eq. reflexivity. Qed.

Lemma text_eqb_neq (a b : text) : text_eqb a b = false <-> a <> b.
Proof.
  unfold text_eqb. destruct (list_eq_dec ascii_dec a b); split; congruence.
Qed.

Lemma split_from_length (sep : ascii) (s cur : text) :
  (1 <= length (split_from sep cur s))%nat.
Proof.
  revert cur. induction s as [|c r IH]; intros cur; simpl.
  - lia.
  - destruct (Ascii.eqb c sep); simpl; [lia | apply IH].
Qed.

Lemma split_length (sep : ascii) (s : text) : (1 <= length (split sep s))%nat.
Proof. apply split_from_length. Qed.

(** Three tests of which exactly one holds of every element split a list
    into three parts. *)
Lemma filter_three {X : Type} (p q : X -> bool) (l : list X) :
  (forall x, p x && q x = false) ->
  (length (filter p l) + length (filter q l)
   + length (filter (fun x => negb (p x) && negb (q x)) l) = length l)%nat.
Proof.
  intros D. induction l as [|x l IH]; simpl; [reflexivity|].
  specialize (D x).
  destruct (p x), (q x); simpl in *; try discriminate; lia.
Qed.

End StrFacts.

(** ** The size analyzer *)

Module SizeProps.
Import PyStr PyNum CodeMetrics StrFacts.

Local Open Scope Z_scope.

(** A blank line is not a comment line: after [strip] nothing is left
    for a comment marker to start. *)
Lemma blank_not_comment (line : text) :
  is_blank line && _is_comment_line line = false.
Proof.
  unfold is_blank, _is_comment_line.
  destruct (text_eqb (strip line) []) eqn:E; [|reflexivity].
  apply text_eqb_eq in E. rewrite E. reflexivity.
Qed.

(** C10.  The line list of any text, the empty one included, has at
    least one element, so [total_lines] is at least 1 and the comment
    ratio is always the rounded quotient: the [else 0] of its guard is
    never taken. *)
Theorem total_lines_at_least_one (file_content : text) :
  let m := _analyze_size (init file_content) in
  1 <= total_lines m
  /\ comment_ratio m
     = round1 (inject_Z (comment_lines m) / inject_Z (total_lines m) * 100)%Q.
Proof.
  cbv zeta. unfold _analyze_size, init, len; simpl.
  pose proof (split_length nl file_content) as L.
  split; [lia|].
  destruct (Z.gtb_spec (Z.of_nat (length (split nl file_content))) 0) as [_|H];
    [reflexivity | lia].
Qed.

(** C6.  Every line is of exactly one kind (blank, comment or logical):
    the three counts add up to [total_lines], [logical_loc] counts the
    lines that are neither blank nor comment and is not negative. *)
Theorem size_partition (file_content : text) :
  let self := init file_content in
  let m := _analyze_size self in
  blank_lines m + comment_lines m + logical_loc m = total_lines m
  /\ 0 <= logical_loc m
  /\ logical_loc m
     = len (filter (fun l => negb (is_blank l) && negb (_is_comment_line l)) (lines self))
  /\ (forall line, is_blank line && _is_comment_line line = false).
Proof.
  cbv zeta. unfold _analyze_size, len; simpl.
  pose proof (filter_three is_blank _is_comment_line
                (split nl file_content) blank_not_comment) as P.
  repeat split; try lia. apply blank_not_comment.
Qed.

End SizeProps.

(** ** The block extractor *)

Module BlockProps.
Import PyStr CodeMetrics BlockSpec StrFacts.

Local Open Scope Z_scope.

Lemma last_default {X : Type} (l : list X) (d d' : X) :
  l <> [] -> last l d = last l d'.
Proof.
  induction l as [|a l IH]; [congruence|]. intros _.
  destruct l as [|b l]; [reflexivity|].
  change (last (b :: l) d = last (b :: l) d'). apply IH. discriminate.
Qed.

Lemma last_cons {X : Type} (a : X) (l : list X) (d : X) :
  last (a :: l) d = last l a.
Proof.
  destruct l as [|b l]; [reflexivity|].
  change (last (b :: l) d = last (b :: l) a). apply last_default. discriminate.
Qed.

Lemma block_loop_last (cs : text) (st : scan_state) (i : nat) :
  block_loop st i cs = last (block_trace st i cs) st.
Proof.
  revert st i. induction cs as [|ch r IH]; intros st i; simpl block_loop;
    simpl block_trace; [reflexivity|].
  rewrite last_cons.
  destruct (broke (block_step st i ch)) eqn:B; [reflexivity|].
  apply IH.
Qed.

Lemma block_step_depth (st : scan_state) (i : nat) (ch : ascii) :
  depth (block_step st i ch) = depth st + brace_delta ch.
Proof.
  unfold block_step, brace_delta.
  destruct (Ascii.eqb ch "{"); [reflexivity|].
  destruct (Ascii.eqb ch "}"); [|simpl; lia].
  destruct (depth st - 1 =? 0); simpl; lia.
Qed.

(** A round that does not bring the depth to 0 leaves [end] alone and
    does not break. *)
Lemma block_step_open (st : scan_state) (i : nat) (ch : ascii) :
  broke st = false ->
  depth st + brace_delta ch <> 0 ->
  end_ (block_step st i ch) = end_ st /\ broke (block_step st i ch) = false.
Proof.
  unfold block_step, brace_delta. intros B H.
  destruct (Ascii.eqb ch "{"); [split; reflexivity|].
  destruct (Ascii.eqb ch "}"); [|split; [reflexivity | exact B]].
  destruct (Z.eqb_spec (depth st - 1) 0); [lia | split; reflexivity].
Qed.

(** The loop on a text none of whose prefixes closes the depth. *)
Lemma block_loop_never_closed (cs : text) (st : scan_state) (i : nat) :
  broke st = false ->
  (forall n, (1 <= n <= length cs)%nat -> depth st + brace_depth (firstn n cs) <> 0) ->
  end_ (block_loop st i cs) = end_ st.
Proof.
  revert st i. induction cs as [|ch r IH]; intros st i B H; simpl; [reflexivity|].
  assert (H1 : depth st + brace_delta ch <> 0).
  { specialize (H 1%nat). simpl in H.
    rewrite Z.add_0_r in H. apply H. lia. }
  destruct (block_step_open st i ch B H1) as [E B'].
  rewrite B', IH, E; auto.
  intros n Hn. rewrite block_step_depth.
  specialize (H (S n)). simpl in H. rewrite <- Z.add_assoc. apply H. lia.
Qed.

Lemma never_closed_spec (s : text) :
  never_closed s = true ->
  forall n, (1 <= n <= length s)%nat -> brace_depth (firstn n s) <> 0.
Proof.
  unfold never_closed. rewrite forallb_forall. intros H n Hn.
  specialize (H n). rewrite in_seq in H.
  assert (Hin : (1 <= n < 1 + length s)%nat) by lia.
  specialize (H Hin). apply negb_true_iff in H. apply Z.eqb_neq in H. exact H.
Qed.

(** The loop on a text whose last character is the first to bring the
    depth, [1] or more at the start, to 0. *)
Lemma block_loop_closes (cs post : text) (st : scan_state) (i : nat) :
  broke st = false ->
  1 <= depth st ->
  cs <> [] ->
  depth st + brace_depth cs = 0 ->
  (forall n, (1 <= n < length cs)%nat -> 0 < depth st + brace_depth (firstn n cs)) ->
  let tr := block_trace st i (cs ++ post) in
  length tr = length cs
  /\ Forall (fun s => 0 <= depth s) tr
  /\ depth (last tr st) = 0
  /\ broke (last tr st) = true
  /\ end_ (last tr st) = (i + length cs)%nat.
Proof.
  revert st i. induction cs as [|ch r IH]; intros st i B D NE T P; [congruence|].
  cbv zeta. simpl app. simpl block_trace.
  destruct r as [|ch' r'].
  - (* the closing character *)
    simpl in T. rewrite Z.add_0_r in T.
    unfold block_step. unfold brace_delta in T.
    destruct (Ascii.eqb ch "{"); [lia|].
    destruct (Ascii.eqb ch "}"); [|lia].
    destruct (Z.eqb_spec (depth st - 1) 0); [|lia].
    simpl. repeat split; try lia.
    constructor; [simpl; lia | constructor].
  - assert (P1 : 0 < depth st + brace_delta ch).
    { specialize (P 1%nat). simpl in P. rewrite Z.add_0_r in P. apply P. lia. }
    assert (H1 : depth st + brace_delta ch <> 0) by lia.
    destruct (block_step_open st i ch B H1) as [E B'].
    rewrite B'.
    pose proof (block_step_depth st i ch) as Dp.
    destruct (IH (block_step st i ch) (S i) B') as (L & F & D0 & Bk & En).
    + lia.
    + discriminate.
    + rewrite Dp.
      change (brace_depth (ch :: ch' :: r'))
        with (brace_delta ch + brace_depth (ch' :: r')) in T. lia.
    + intros n Hn. rewrite Dp. specialize (P (S n)).
      change (firstn (S n) (ch :: ch' :: r')) with (ch :: firstn n (ch' :: r')) in P.
      change (brace_depth (ch :: firstn n (ch' :: r')))
        with (brace_delta ch + brace_depth (firstn n (ch' :: r'))) in P.
      rewrite <- Z.add_assoc. apply P. simpl in Hn. simpl. lia.
    + set (tr := block_trace (block_step st i ch) (S i) ((ch' :: r') ++ post)) in *.
      rewrite !last_cons. repeat split.
      * simpl. simpl in L. lia.
      * constructor; [lia | exact F].
      * exact D0.
      * exact Bk.
      * rewrite En. simpl. lia.
Qed.

Lemma skipn_pre {X : Type} (pre l : list X) : skipn (length pre) (pre ++ l) = l.
Proof. induction pre as [|a pre IH]; [reflexivity | exact IH]. Qed.

Lemma firstn_pre {X : Type} (pre l : list X) : firstn (length pre) (pre ++ l) = pre.
Proof. induction pre as [|a pre IH]; [reflexivity | simpl; rewrite IH; reflexivity]. Qed.

Lemma slice_same (s : text) (a : nat) : slice s a a = [].
Proof. unfold slice. rewrite Nat.sub_diag. reflexivity. Qed.

Lemma slice_middle (pre blk post : text) :
  slice (pre ++ blk ++ post) (length pre) (length pre + length blk) = blk.
Proof.
  unfold slice. rewrite skipn_pre.
  replace (length pre + length blk - length pre)%nat with (length blk + 0)%nat by lia.
  rewrite firstn_app_2. simpl. apply app_nil_r.
Qed.

Lemma brace_depth_app (a b : text) :
  brace_depth (a ++ b) = brace_depth a + brace_depth b.
Proof. induction a as [|ch a IH]; simpl; [reflexivity | rewrite IH; lia]. Qed.

Lemma brace_delta_closing (ch : ascii) : brace_delta ch < 0 -> ch = "}"%char.
Proof.
  unfold brace_delta. destruct (Ascii.eqb ch "{"); [lia|].
  destruct (Ascii.eqb_spec ch "}"); [auto | lia].
Qed.

Lemma balanced_block_spec (blk : text) :
  balanced_block blk = true ->
  exists r, blk = "{"%char :: r
            /\ brace_depth blk = 0
            /\ forall n, (1 <= n < length blk)%nat -> 0 < brace_depth (firstn n blk).
Proof.
  destruct blk as [|ch r]; [discriminate|]. unfold balanced_block.
  rewrite !andb_true_iff, forallb_forall. intros [[C T] P].
  apply Ascii.eqb_eq in C. subst ch. exists r. split; [reflexivity|].
  apply Z.eqb_eq in T. split; [exact T|].
  intros n Hn. specialize (P n). rewrite in_seq in P. simpl in Hn.
  apply Z.ltb_lt. apply P. lia.
Qed.




(** C8.  On a brace region that is balanced the extractor returns the
    region: the slice starts at the opening brace and its last character
    is the matching closing brace; the depth is never negative in the
    scan and is 0 when the scan stops, one past that brace. *)
Theorem extract_block_balanced (pre blk post : text) :
  balanced_block blk = true ->
  let content := pre ++ blk ++ post in
  let start := length pre in
  let tr := block_trace (block_init start) start (skipn start content) in
  let final := block_loop (block_init start) start (skipn start content) in
  _extract_block content start = blk
  /\ hd_error blk = Some "{"%char
  /\ last blk "{"%char = "}"%char
  /\ final = last tr (block_init start)
  /\ Forall (fun st => 0 <= depth st) tr
  /\ depth final = 0
  /\ broke final = true
  /\ end_ final = (start + length blk)%nat.
Proof.
  intros Bal. cbv zeta.
  destruct (balanced_block_spec blk Bal) as (r & -> & T & P).
  rewrite skipn_pre.
  set (st0 := block_init (length pre)).
  set (st1 := block_step st0 (length pre) "{").
  assert (B1 : broke st1 = false) by reflexivity.
  assert (D1 : depth st1 = 1) by reflexivity.
  assert (NE : r <> []).
  { intros ->. simpl in T. discriminate. }
  change (brace_depth ("{"%char :: r)) with (1 + brace_depth r) in T.
  destruct (block_loop_closes r post st1 (S (length pre)) B1) as (L & F & D0 & Bk & En).
  - lia.
  - exact NE.
  - lia.
  - intros n Hn. rewrite D1. specialize (P (S n)).
    change (firstn (S n) ("{"%char :: r)) with ("{"%char :: firstn n r) in P.
    change (brace_depth ("{"%char :: firstn n r)) with (1 + brace_depth (firstn n r)) in P.
    apply P. simpl. lia.
  - assert (Tr : block_trace st0 (length pre) (("{"%char :: r) ++ post)
                 = st1 :: block_trace st1 (S (length pre)) (r ++ post)) by reflexivity.
    assert (Lp : block_loop st0 (length pre) (("{"%char :: r) ++ post)
                 = last (block_trace st1 (S (length pre)) (r ++ post)) st1).
    { rewrite block_loop_last, Tr. apply last_cons. }
    assert (Ex : _extract_block (pre ++ ("{"%char :: r) ++ post) (length pre)
                 = "{"%char :: r).
    { unfold _extract_block.
      rewrite skipn_pre. fold st0. rewrite Lp, En.
      replace (S (length pre) + length r)%nat
        with (length pre + length ("{"%char :: r))%nat by (simpl; lia).
      apply slice_middle. }
    rewrite Lp, Tr, last_cons.
    split; [exact Ex|]. split; [reflexivity|]. split.
    { (* the last character *)
      destruct (exists_last NE) as (body & ch & ->).
      rewrite brace_depth_app in T.
      change (brace_depth [ch]) with (brace_delta ch + 0) in T.
      assert (0 < 1 + brace_depth body).
      { destruct body as [|b body'].
        - simpl. lia.
        - specialize (P (length ("{"%char :: b :: body'))).
          change ("{"%char :: (b :: body') ++ [ch])
            with (("{"%char :: b :: body') ++ [ch]) in P.
          rewrite firstn_pre in P.
          change (brace_depth ("{"%char :: b :: body'))
            with (1 + brace_depth (b :: body')) in P.
          apply P. rewrite length_app. simpl. lia. }
      assert (ch = "}"%char) by (apply brace_delta_closing; lia).
      subst ch. change ("{"%char :: body ++ ["}"%char])
        with (("{"%char :: body) ++ ["}"%char]).
      apply last_last. }
    split; [symmetry; apply last_cons|]. split.
    { constructor; [rewrite D1; lia | exact F]. }
    split; [exact D0|]. split; [exact Bk|].
    rewrite En. simpl. lia.
Qed.

Lemma extract_block_balanced_witness :
  balanced_block (str "{ a { } b }") = true
  /\ _extract_block (str "f() { a { } b } g") 4 = str "{ a { } b }".
Proof.
  split; [reflexivity|].
  apply (extract_block_balanced (str "f() ") (str "{ a { } b }") (str " g")).
  reflexivity.
Defined.

End BlockProps.

(** ** The score aggregator *)

Module ScoreProps.
Import PyNum CodeMetrics ScoreSpec.

Local Open Scope Z_scope.

Lemma quot_pos_floor (n : Z) (d : positive) :
  Z.quot n (Zpos d) = if 0 <=? n then n / Zpos d else - ((- n) / Zpos d).
Proof.
  destruct (Z.leb_spec 0 n).
  - apply Z.quot_div_nonneg; lia.
  - rewrite <- (Z.opp_involutive n) at 1.
    rewrite Z.quot_opp_l by lia. rewrite Z.quot_div_nonneg by lia. reflexivity.
Qed.

Lemma div_cross_le (a b : Z) (c d : positive) :
  a * Zpos d <= b * Zpos c -> a / Zpos c <= b / Zpos d.
Proof.
  intros H. apply (Qfloor_resp_le (a # c) (b # d)). exact H.
Qed.

(** [int] keeps the order. *)
Lemma py_int_le (x y : Q) : (x <= y)%Q -> py_int x <= py_int y.
Proof.
  destruct x as [a c], y as [b d]. unfold Qle, py_int; simpl. intros H.
  rewrite !quot_pos_floor.
  destruct (Z.leb_spec 0 a), (Z.leb_spec 0 b).
  - apply div_cross_le. exact H.
  - exfalso. nia.
  - assert (0 <= (- a) / Zpos c) by (apply Z.div_pos; lia).
    assert (0 <= b / Zpos d) by (apply Z.div_pos; lia). lia.
  - apply Z.opp_le_mono. rewrite !Z.opp_involutive.
    apply div_cross_le. lia.
Qed.

Lemma py_int_of_Z (x : Q) (z : Z) : (x == inject_Z z)%Q -> py_int x = z.
Proof.
  destruct x as [a c]. unfold Qeq, py_int; simpl. intros H.
  rewrite Z.mul_1_r in H. subst a. apply Z.quot_mul. discriminate.
Qed.

Lemma inject_min_le (cap z : Z) : (inject_Z (Z.min cap z) <= inject_Z cap)%Q.
Proof. rewrite <- Zle_Qle. lia. Qed.

(** C7.  One more code smell never raises the score, and no category
    deducts more than its cap: complexity 20, smells 15, duplication 15,
    conventions 10, long tests 10, AAA 10, syntax 10, framework 10. *)
Theorem score_monotone_and_capped (metrics : All.AllMetrics) :
  calculate_quality_score
    (with_smell_count metrics (code_smell_count (All.code_smells metrics) + 1))
  <= calculate_quality_score metrics
  /\ (complexity_deduction metrics <= 20)%Q
  /\ (smell_deduction metrics <= 15)%Q
  /\ (duplication_deduction metrics <= 15)%Q
  /\ (convention_deduction metrics <= 10)%Q
  /\ (long_test_deduction metrics <= 10)%Q
  /\ (aaa_deduction metrics <= 10)%Q
  /\ (syntax_deduction metrics <= 10)%Q
  /\ (framework_deduction metrics <= 10)%Q.
Proof.
  split.
  - unfold calculate_quality_score.
    set (m' := with_smell_count metrics _).
    change (complexity_deduction m') with (complexity_deduction metrics).
    change (duplication_deduction m') with (duplication_deduction metrics).
    change (convention_deduction m') with (convention_deduction metrics).
    change (long_test_deduction m') with (long_test_deduction metrics).
    change (aaa_deduction m') with (aaa_deduction metrics).
    change (syntax_deduction m') with (syntax_deduction metrics).
    change (framework_deduction m') with (framework_deduction metrics).
    assert (S : (smell_deduction metrics <= smell_deduction m')%Q).
    { unfold smell_deduction, m', with_smell_count; simpl.
      rewrite <- Zle_Qle. lia. }
    match goal with
    | |- Z.max 0 (Z.min 100 (py_int ?a)) <= Z.max 0 (Z.min 100 (py_int ?b)) =>
        assert (I : py_int a <= py_int b) by (apply py_int_le; Lqa.lra)
    end.
    lia.
  - repeat split.
    + unfold complexity_deduction.
      destruct (negb _); [apply Q.le_min_l | discriminate].
    + apply (inject_min_le 15).
    + apply Q.le_min_l.
    + apply (inject_min_le 10).
    + apply (inject_min_le 10).
    + unfold aaa_deduction. destruct (negb _); [apply Qle_refl | discriminate].
    + apply (inject_min_le 10).
    + apply (inject_min_le 10).
Qed.

(** C4 (amended).  The aggregator is total.  On a record whose
    sub-metrics are all zero every category contributes zero penalty but
    the AAA one, which contributes its flat 10 because the AAA percentage
    0 is below 50; the score is exactly 90. *)
Theorem score_of_zero_metrics (metrics : All.AllMetrics) :
  all_zero metrics ->
  (complexity_deduction metrics == 0)%Q
  /\ (smell_deduction metrics == 0)%Q
  /\ (duplication_deduction metrics == 0)%Q
  /\ (convention_deduction metrics == 0)%Q
  /\ (long_test_deduction metrics == 0)%Q
  /\ (aaa_deduction metrics == 10)%Q
  /\ (syntax_deduction metrics == 0)%Q
  /\ (framework_deduction metrics == 0)%Q
  /\ calculate_quality_score metrics = 90.
Proof.
  intros (A & S & D & V & L & P & X & F).
  assert (C0 : (complexity_deduction metrics == 0)%Q).
  { unfold complexity_deduction.
    assert (E : Qle_bool (avg_cyclomatic (All.complexity metrics)) 10 = true)
      by (apply Qle_bool_iff; rewrite A; discriminate).
    rewrite E. reflexivity. }
  assert (S0 : (smell_deduction metrics == 0)%Q)
    by (unfold smell_deduction; rewrite S; reflexivity).
  assert (D0 : (duplication_deduction metrics == 0)%Q).
  { unfold duplication_deduction. rewrite D. reflexivity. }
  assert (V0 : (convention_deduction metrics == 0)%Q)
    by (unfold convention_deduction; rewrite V; reflexivity).
  assert (L0 : (long_test_deduction metrics == 0)%Q)
    by (unfold long_test_deduction; rewrite L; reflexivity).
  assert (P0 : (aaa_deduction metrics == 10)%Q).
  { unfold aaa_deduction.
    destruct (Qle_bool 50 (aaa_percentage (All.test metrics))) eqn:E; [|reflexivity].
    apply Qle_bool_iff in E. rewrite P in E. exfalso. apply E. reflexivity. }
  assert (X0 : (syntax_deduction metrics == 0)%Q)
    by (unfold syntax_deduction; rewrite X; reflexivity).
  assert (F0 : (framework_deduction metrics == 0)%Q)
    by (unfold framework_deduction; rewrite F; reflexivity).
  repeat split; auto.
  unfold calculate_quality_score.
  rewrite (py_int_of_Z _ 90); [reflexivity|].
  rewrite C0, S0, D0, V0, L0, P0, X0, F0. reflexivity.
Qed.

Lemma score_of_zero_metrics_witness :
  all_zero default_metrics /\ calculate_quality_score default_metrics = 90.
Proof.
  assert (Z0 : all_zero default_metrics) by (repeat split; reflexivity).
  split; [exact Z0|].
  apply (score_of_zero_metrics default_metrics Z0).
Defined.

(** C4 as stated fails: the record with every sub-metric at its default
    scores 90, not 100. *)
Lemma score_of_default_counterexample :
  all_zero default_metrics /\ calculate_quality_score default_metrics <> 100.
Proof. split; [repeat split; reflexivity | discriminate]. Qed.

End ScoreProps.

(** ** The duplication analyzer *)

Module DuplicationProps.
Import PyStr PyNum PyDict CodeMetrics ReportSpec DuplicationSpec StrFacts.

Local Open Scope Z_scope.

(** *** Dictionaries *)

Lemma get_set_same {V : Type} (d : dict V) (k : text) (v dft : V) :
  get (set d k v) k dft = v.
Proof.
  induction d as [|[k' v'] d IH]; simpl.
  - rewrite text_eqb_refl. reflexivity.
  - destruct (text_eqb k' k) eqn:E; simpl; rewrite E; [reflexivity | exact IH].
Qed.

Lemma get_set_other {V : Type} (d : dict V) (k k' : text) (v dft : V) :
  k' <> k -> get (set d k v) k' dft = get d k' dft.
Proof.
  intros N. induction d as [|[k0 v0] d IH]; simpl.
  - assert (E : text_eqb k k' = false) by (apply text_eqb_neq; congruence).
    rewrite E. reflexivity.
  - destruct (text_eqb k0 k) eqn:E; simpl.
    + apply text_eqb_eq in E. subst k0.
      assert (E' : text_eqb k k' = false) by (apply text_eqb_neq; congruence).
      rewrite E'. reflexivity.
    + destruct (text_eqb k0 k'); [reflexivity | exact IH].
Qed.

Lemma in_keys_set {V : Type} (d : dict V) (k k' : text) (v : V) :
  In k' (keys (set d k v)) <-> k' = k \/ In k' (keys d).
Proof.
  unfold keys. induction d as [|[k0 v0] d IH]; simpl.
  - intuition congruence.
  - destruct (text_eqb k0 k) eqn:E; simpl.
    + apply text_eqb_eq in E. subst k0. intuition congruence.
    + rewrite IH. intuition congruence.
Qed.

Lemma nodup_keys_set {V : Type} (d : dict V) (k : text) (v : V) :
  NoDup (keys d) -> NoDup (keys (set d k v)).
Proof.
  unfold keys. induction d as [|[k0 v0] d IH]; simpl; intros N.
  - constructor; [intros [] | constructor].
  - inversion N as [|? ? Hn Hd]; subst.
    destruct (text_eqb k0 k) eqn:E; simpl.
    + constructor; assumption.
    + constructor; [|apply IH; exact Hd].
      intros Hin. apply (in_keys_set d k k0 v) in Hin.
      apply text_eqb_neq in E. destruct Hin; [congruence | contradiction].
Qed.

Lemma in_dict_get {V : Type} (d : dict V) (k : text) (v dft : V) :
  NoDup (keys d) -> In (k, v) d -> get d k dft = v.
Proof.
  unfold keys. induction d as [|[k0 v0] d IH]; simpl; intros N Hin; [contradiction|].
  inversion N as [|? ? Hn Hd]; subst.
  destruct Hin as [Heq | Hin].
  - inversion Heq; subst. rewrite text_eqb_refl. reflexivity.
  - destruct (text_eqb k0 k) eqn:E.
    + apply text_eqb_eq in E. subst k0. exfalso. apply Hn.
      apply (in_map fst) in Hin. exact Hin.
    + apply IH; assumption.
Qed.

(** *** What [Counter] holds *)

(** [d] counts the texts of [ys]: its keys are the distinct texts of
    [ys] and each is bound to its number of occurrences. *)
Definition counts (d : dict nat) (ys : list text) : Prop :=
  NoDup (keys d)
  /\ (forall k, In k (keys d) <-> In k ys)
  /\ (forall k, get d k O = occurrences ys k).

Lemma counts_step (d : dict nat) (ys : list text) (x : text) :
  counts d ys -> counts (set d x (S (get d x O))) (ys ++ [x]).
Proof.
  intros (N & K & G). repeat split.
  - apply nodup_keys_set. exact N.
  - rewrite in_keys_set, in_app_iff, K. simpl. intuition congruence.
  - rewrite in_app_iff, <- K. intros H. apply in_keys_set. simpl in H. intuition congruence.
  - intros k. unfold occurrences. rewrite count_occ_app. simpl.
    destruct (text_dec x k) as [->|Hne].
    + rewrite get_set_same, G. unfold occurrences. lia.
    + rewrite get_set_other by congruence. rewrite G. unfold occurrences. lia.
Qed.

Lemma counts_fold (xs : list text) (d : dict nat) (ys : list text) :
  counts d ys ->
  counts (fold_left (fun d x => set d x (S (get d x O))) xs d) (ys ++ xs).
Proof.
  revert d ys. induction xs as [|x xs IH]; intros d ys C; simpl.
  - rewrite app_nil_r. exact C.
  - replace (ys ++ x :: xs) with ((ys ++ [x]) ++ xs) by (rewrite <- app_assoc; reflexivity).
    apply IH. apply counts_step. exact C.
Qed.

Lemma Counter_counts (xs : list text) : counts (Counter xs) xs.
Proof.
  unfold Counter. apply (counts_fold xs [] []).
  repeat split; simpl; try tauto. constructor.
Qed.

(** *** Sums *)

Lemma fold_add (l : list Z) (a : Z) : fold_left Z.add l a = a + fold_left Z.add l 0.
Proof.
  revert a. induction l as [|b l IH]; intros a; simpl; [lia|].
  rewrite (IH (a + b)), (IH b). lia.
Qed.

Lemma sum_cons (a : Z) (l : list Z) : sum (a :: l) = a + sum l.
Proof. unfold sum. simpl. apply fold_add. Qed.

Lemma sum_perm (l l' : list Z) : Permutation l l' -> sum l = sum l'.
Proof.
  induction 1 as [| a l l' _ IH | a b l | l l' l'' _ IH1 _ IH2].
  - reflexivity.
  - rewrite !sum_cons, IH. reflexivity.
  - rewrite !sum_cons. lia.
  - congruence.
Qed.

Lemma filter_perm {X : Type} (p : X -> bool) (l l' : list X) :
  Permutation l l' -> Permutation (filter p l) (filter p l').
Proof.
  induction 1 as [| a l l' _ IH | a b l | l l' l'' _ IH1 _ IH2]; simpl.
  - constructor.
  - destruct (p a); [constructor|]; exact IH.
  - destruct (p a), (p b); try apply Permutation_refl. constructor.
  - eapply Permutation_trans; eassumption.
Qed.

(** The sum over the entries of a dictionary that counts [ys], written
    over its keys. *)
Lemma counted_sum (d : dict nat) (ys : list text) :
  counts d ys ->
  sum (map (fun count => Z.of_nat count - 1) (values (duplicates_of d)))
  = sum (map (fun t => Z.of_nat (occurrences ys t) - 1)
             (filter (fun t => (2 <=? occurrences ys t)%nat) (keys d))).
Proof.
  intros (N & _ & G).
  assert (E : forall k v, In (k, v) d -> v = occurrences ys k).
  { intros k v Hin. rewrite <- G. symmetry. apply in_dict_get; assumption. }
  clear N G. unfold duplicates_of, values, keys.
  induction d as [|[k v] d IH]; cbn [filter map fst snd]; [reflexivity|].
  assert (Ev : v = occurrences ys k) by (apply E; left; reflexivity).
  assert (IH' : forall k0 v0, In (k0, v0) d -> v0 = occurrences ys k0)
    by (intros; apply E; right; assumption).
  specialize (IH IH'). subst v.
  replace (1 <? occurrences ys k)%nat with (2 <=? occurrences ys k)%nat
    by (destruct (Nat.leb_spec 2 (occurrences ys k)), (Nat.ltb_spec 1 (occurrences ys k));
        try reflexivity; lia).
  destruct (2 <=? occurrences ys k)%nat; cbn [filter map fst snd]; [|exact IH].
  rewrite !sum_cons, IH. reflexivity.
Qed.

Lemma duplicate_lines_spec (texts : list text) :
  sum (map (fun count => Z.of_nat count - 1) (values (duplicates_of (Counter texts))))
  = spec_duplicate_lines texts.
Proof.
  pose proof (Counter_counts texts) as C.
  rewrite (counted_sum _ texts C).
  destruct C as (N & K & _).
  unfold spec_duplicate_lines, recurring.
  apply sum_perm, Permutation_map, filter_perm.
  apply NoDup_Permutation; [exact N | apply NoDup_nodup |].
  intros k. rewrite K, nodup_In. reflexivity.
Qed.

Lemma recurring_nodup (texts : list text) : NoDup texts -> recurring texts = [].
Proof.
  intros N. unfold recurring.
  rewrite (NoDup_count_occ text_dec) in N.
  induction (nodup text_dec texts) as [|t l IH]; cbn [filter]; [reflexivity|].
  destruct (Nat.leb_spec 2 (occurrences texts t)) as [H|_]; [|exact IH].
  specialize (N t). unfold occurrences in H. lia.
Qed.

Lemma percent_zero (b : Z) : (percent 0 b == 0)%Q.
Proof.
  unfold percent, round1.
  assert (E : Qnum (inject_Z 0 / inject_Z (Z.max b 1) * 100)%Q = 0) by reflexivity.
  rewrite E. simpl. reflexivity.
Qed.

(** C9 (amended).  [duplicate_lines] is the sum of [count - 1] over the
    distinct meaningful line texts that occur 2 times or more;
    [duplicate_percentage] is [duplicate_lines] divided by the number of
    meaningful lines (by 1 when there is none) times 100, rounded to one
    decimal place; a file whose meaningful lines are all different has
    [duplicate_lines] and [duplicate_percentage] 0. *)
Theorem duplication_counts (file_content : text) :
  let m := _analyze_duplication (init file_content) in
  let texts := meaningful_texts file_content in
  duplicate_lines m = spec_duplicate_lines texts
  /\ duplicate_percentage m
     = round1 (inject_Z (duplicate_lines m) / inject_Z (Z.max (len texts) 1) * 100)%Q
  /\ (NoDup texts -> duplicate_lines m = 0 /\ (duplicate_percentage m == 0)%Q).
Proof.
  cbv zeta. unfold _analyze_duplication, meaningful_texts.
  cbn [duplicate_lines duplicate_percentage].
  set (self := init file_content).
  set (texts := map snd (meaningful_lines self)).
  assert (L : len (meaningful_lines self) = len texts)
    by (unfold len, texts; rewrite length_map; reflexivity).
  rewrite L, duplicate_lines_spec.
  split; [reflexivity|]. split; [reflexivity|].
  intros N. unfold spec_duplicate_lines. rewrite (recurring_nodup texts N).
  split; [reflexivity | apply percent_zero].
Qed.

Lemma duplication_counts_witness :
  let file := two_lines in
  NoDup (meaningful_texts file)
  /\ duplicate_lines (_analyze_duplication (init file)) = 0
  /\ (duplicate_percentage (_analyze_duplication (init file)) == 0)%Q.
Proof.
  cbv zeta.
  assert (N : NoDup (meaningful_texts (two_lines))).
  { vm_compute. repeat constructor; simpl; intuition discriminate. }
  split; [exact N|].
  apply (duplication_counts (two_lines)). exact N.
Defined.

(** C9 as stated fails where it leaves the rounding out: with one
    duplicated line among three meaningful lines the percentage is 33.3,
    not 100/3. *)
Lemma duplicate_percentage_counterexample :
  let file := three_lines in
  let m := _analyze_duplication (init file) in
  duplicate_lines m = 1
  /\ len (meaningful_texts file) = 3
  /\ duplicate_percentage m = (333 # 10)%Q
  /\ ~ (duplicate_percentage m
        == inject_Z (duplicate_lines m) / inject_Z (len (meaningful_texts file)) * 100)%Q.
Proof.
  cbv zeta. split; [reflexivity|]. split; [reflexivity|]. split; [reflexivity|].
  vm_compute. discriminate.
Qed.

End DuplicationProps.

(** ** The complexity analyzer *)

Module ComplexityProps.
Import PyStr PyNum PyDict CodeMetrics ReportSpec.

Local Open Scope Z_scope.

(** [_calc_cyclomatic] adds up the matches of its nine patterns, each
    pattern on its own. *)
Lemma calc_cyclomatic_sum (code : text) :
  _calc_cyclomatic code
  = 1 + decision_points "\bif\b" code + decision_points "\belse\s+if\b" code
    + decision_points "\bfor\b" code + decision_points "\bwhile\b" code
    + decision_points "\bcase\b" code + decision_points "\bcatch\b" code
    + decision_points "\b\?\s*:" code + decision_points "\b&&\b" code
    + decision_points "\b\|\|\b" code.
Proof. reflexivity. Qed.

(** C3, on the code.  A body without decision constructs has complexity 1
    and one [if] raises it to 2, but one further [else if] raises it to 4:
    an [else if] is matched once by the pattern for [if] and once more by
    the pattern for [else if]. *)
Theorem cyclomatic_else_if_counted_twice :
  _calc_cyclomatic (str "{ }") = 1
  /\ _calc_cyclomatic (str "{ if (a) { } }") = 2
  /\ _calc_cyclomatic (str "{ if (a) { } else if (b) { } }") = 4
  /\ decision_points "\bif\b" (str "{ if (a) { } else if (b) { } }") = 2
  /\ decision_points "\belse\s+if\b" (str "{ if (a) { } else if (b) { } }") = 1.
Proof. repeat split; vm_compute; reflexivity. Qed.

End ComplexityProps.

(** ** The code smell analyzer *)

Module SmellProps.
Import PyStr PyNum PyDict CodeMetrics ReportSpec.

Local Open Scope Z_scope.

(** C5, on the code.  A file with two private fields that are not used
    and no method has a dead code percentage of 200: the dead items, fields
    included, are divided by the number of methods, and nothing clamps the
    quotient. *)
Theorem dead_code_percentage_above_100 :
  let self := init two_fields in
  let m := _analyze_code_smells self in
  methods self = []
  /\ dead_code_items m = [str "Unused field: foo"; str "Unused field: bar"]
  /\ dead_code_percentage m = (2000 # 10)%Q
  /\ ~ (dead_code_percentage m <= 100)%Q.
Proof.
  cbv zeta. split; [vm_compute; reflexivity|]. split; [vm_compute; reflexivity|].
  split; [vm_compute; reflexivity|].
  vm_compute. intros H. apply H. reflexivity.
Qed.

End SmellProps.

(** ** The whole analysis *)

Module AnalysisProps.
Import PyStr PyNum PyDict CodeMetrics ReportSpec.

Local Open Scope Z_scope.

Lemma mi_loc_guarded (size : SizeMetrics) : 1 <= mi_loc size.
Proof. unfold mi_loc. lia. Qed.

Lemma mi_tokens_guarded (file_content : text) : 1 <= mi_tokens file_content.
Proof. unfold mi_tokens. lia. Qed.

Lemma ln_pos (x : R) : (1 < x)%R -> (0 < ln x)%R.
Proof. intros H. rewrite <- ln_1. apply ln_increasing; lra. Qed.

(** With two distinct tokens or more the Halstead volume is positive and
    the three logarithms are defined. *)
Lemma maintainability_completes (self : JavaTestAnalyzer) (size : SizeMetrics) (avg : Q) :
  2 <= mi_tokens (content self) ->
  exists mi, maintainability self size avg = Some mi.
Proof.
  intros H. unfold maintainability, math_log2, math_log.
  pose proof (mi_loc_guarded size) as Hl.
  assert (Ht : (2 <= IZR (mi_tokens (content self)))%R) by (apply IZR_le; exact H).
  assert (Hloc : (1 <= IZR (mi_loc size))%R) by (apply IZR_le; exact Hl).
  destruct (Rle_dec (IZR (mi_tokens (content self))) 0) as [F|_]; [lra|].
  assert (Hv : (0 < IZR (mi_loc size) * (ln (IZR (mi_tokens (content self))) / ln 2))%R).
  { apply Rmult_lt_0_compat; [lra|].
    apply Rdiv_lt_0_compat; apply ln_pos; lra. }
  destruct (Rle_dec _ 0) as [F|_]; [lra|].
  destruct (Rle_dec (IZR (mi_loc size)) 0) as [F|_]; [lra|].
  eexists. reflexivity.
Qed.

(** With one distinct token or none the Halstead volume is 0 and its
    logarithm is not defined. *)
Lemma maintainability_raises (self : JavaTestAnalyzer) (size : SizeMetrics) (avg : Q) :
  mi_tokens (content self) = 1 ->
  maintainability self size avg = None.
Proof.
  intros H. unfold maintainability, math_log2, math_log. rewrite H.
  destruct (Rle_dec 1 0) as [F|_]; [lra|].
  rewrite ln_1.
  destruct (Rle_dec (IZR (mi_loc size) * (0 / ln 2)) 0) as [_|F]; [reflexivity|].
  exfalso. apply F. unfold Rdiv. rewrite Rmult_0_l, Rmult_0_r. lra.
Qed.

(** On the empty file the size pass finds one line, a blank one (the
    newline split of the empty text is one empty line), and every pass other
    than the maintainability index reports 0 in its numeric fields and
    [true] in its adheres/follows field. *)
Lemma empty_file_other_passes :
  split nl [] = [[]]
  /\ total_lines (_analyze_size (init [])) = 1
  /\ blank_lines (_analyze_size (init [])) = 1
  /\ comment_lines (_analyze_size (init [])) = 0
  /\ logical_loc (_analyze_size (init [])) = 0
  /\ (comment_ratio (_analyze_size (init [])) == 0)%Q
  /\ passes_are_zero (init []).
Proof. repeat split; try reflexivity; vm_compute; reflexivity. Qed.

(** C1.  The analysis of the empty file raises, whatever the file name: no
    report is returned.  The exception comes from the maintainability index
    of [_analyze_complexity]: the logical LOC and the token count are both
    guarded to 1 by [max(.., 1)], so [math.log2] of the token count and
    [math.log] of the LOC are defined (both are 0), but the Halstead volume
    is their product [1 * 0 = 0] and [math.log] takes it unguarded. *)
Theorem analysis_raises_on_empty_file (name : text) :
  analyze name [] = None
  /\ _analyze_complexity (init []) (_analyze_size (init [])) = None
  /\ (forall avg, maintainability (init []) (_analyze_size (init [])) avg = None)
  /\ mi_loc (_analyze_size (init [])) = 1
  /\ mi_tokens (content (init [])) = 1
  /\ math_log2 (IZR (mi_tokens (content (init [])))) = Some 0%R
  /\ math_log (IZR (mi_loc (_analyze_size (init [])))) = Some 0%R
  /\ math_log (IZR (mi_loc (_analyze_size (init []))) * 0) = None.
Proof.
  assert (M : forall avg, maintainability (init []) (_analyze_size (init [])) avg = None)
    by (intros avg; apply maintainability_raises; reflexivity).
  assert (C : _analyze_complexity (init []) (_analyze_size (init [])) = None)
    by (unfold _analyze_complexity; rewrite M; reflexivity).
  split; [unfold analyze; rewrite C; reflexivity|].
  split; [exact C|]. split; [exact M|].
  split; [reflexivity|]. split; [reflexivity|].
  change (mi_tokens (content (init []))) with 1.
  change (mi_loc (_analyze_size (init []))) with 1.
  unfold math_log2, math_log.
  destruct (Rle_dec 1 0) as [F|_]; [lra|].
  destruct (Rle_dec (1 * 0) 0) as [_|F]; [|exfalso; apply F; lra].
  rewrite ln_1. repeat split. f_equal. unfold Rdiv. apply Rmult_0_l.
Qed.

End AnalysisProps.

(** ** More on the block extractor *)

Module BlockMoreProps.
Import PyStr CodeMetrics BlockSpec StrFacts BlockProps.

Local Open Scope Z_scope.

(** From a depth of 1 or more, a text either never brings the depth to 0
    or has a first prefix that does. *)
Lemma first_close (cs : text) (d : Z) :
  1 <= d ->
  (forall n, (1 <= n <= length cs)%nat -> d + brace_depth (firstn n cs) <> 0)
  \/ (exists blk post,
        cs = blk ++ post /\ blk <> [] /\ d + brace_depth blk = 0
        /\ forall n, (1 <= n < length blk)%nat -> 0 < d + brace_depth (firstn n blk)).
Proof.
  revert d. induction cs as [|ch r IH]; intros d Hd.
  - left. intros n Hn. simpl in Hn. lia.
  - assert (Hdelta : -1 <= brace_delta ch <= 1).
    { unfold brace_delta. destruct (Ascii.eqb ch "{"); [lia|].
      destruct (Ascii.eqb ch "}"); lia. }
    destruct (Z.eq_dec (d + brace_delta ch) 0) as [E|NE].
    + right. exists [ch], r. repeat split.
      * discriminate.
      * simpl. lia.
      * intros n Hn. simpl in Hn. lia.
    + destruct (IH (d + brace_delta ch)) as [Never | (blk & post & -> & Hne & T & P)]; [lia| |].
      * left. intros n Hn. destruct n as [|n]; [lia|].
        change (firstn (S n) (ch :: r)) with (ch :: firstn n r).
        change (brace_depth (ch :: firstn n r)) with (brace_delta ch + brace_depth (firstn n r)).
        destruct n as [|n].
        -- simpl. lia.
        -- rewrite Z.add_assoc. apply Never. simpl in Hn. lia.
      * right. exists (ch :: blk), post. repeat split.
        -- discriminate.
        -- change (brace_depth (ch :: blk)) with (brace_delta ch + brace_depth blk). lia.
        -- intros n Hn. destruct n as [|n]; [lia|].
           change (firstn (S n) (ch :: blk)) with (ch :: firstn n blk).
           change (brace_depth (ch :: firstn n blk))
             with (brace_delta ch + brace_depth (firstn n blk)).
           destruct n as [|n].
           ++ simpl. lia.
           ++ rewrite Z.add_assoc. apply P. simpl in Hn. lia.
Qed.

Lemma balanced_block_intro (r : text) :
  r <> [] ->
  1 + brace_depth r = 0 ->
  (forall n, (1 <= n < length r)%nat -> 0 < 1 + brace_depth (firstn n r)) ->
  balanced_block ("{"%char :: r) = true.
Proof.
  intros NE T P. unfold balanced_block.
  rewrite !andb_true_iff, forallb_forall. repeat split.
  - apply Z.eqb_eq. change (brace_depth ("{"%char :: r)) with (1 + brace_depth r). exact T.
  - intros n Hn. rewrite in_seq in Hn. apply Z.ltb_lt.
    destruct n as [|n]; [lia|].
    change (firstn (S n) ("{"%char :: r)) with ("{"%char :: firstn n r).
    change (brace_depth ("{"%char :: firstn n r)) with (1 + brace_depth (firstn n r)).
    destruct n as [|n]; [simpl; lia|]. apply P. lia.
Qed.

(** The extractor at the opening brace of a region that closes. *)
Lemma extract_block_at (pre r post : text) :
  r <> [] ->
  1 + brace_depth r = 0 ->
  (forall n, (1 <= n < length r)%nat -> 0 < 1 + brace_depth (firstn n r)) ->
  _extract_block (pre ++ ("{"%char :: r) ++ post) (length pre) = "{"%char :: r.
Proof.
  intros NE T P. unfold _extract_block. rewrite skipn_pre.
  set (st0 := block_init (length pre)).
  set (st1 := block_step st0 (length pre) "{").
  assert (B1 : broke st1 = false) by reflexivity.
  assert (D1 : depth st1 = 1) by reflexivity.
  destruct (block_loop_closes r post st1 (S (length pre)) B1) as (_ & _ & _ & _ & En).
  - lia.
  - exact NE.
  - lia.
  - intros n Hn. rewrite D1. apply P. exact Hn.
  - assert (Lp : block_loop st0 (length pre) (("{"%char :: r) ++ post)
                 = last (block_trace st1 (S (length pre)) (r ++ post)) st1).
    { rewrite block_loop_last.
      change (block_trace st0 (length pre) (("{"%char :: r) ++ post))
        with (st1 :: block_trace st1 (S (length pre)) (r ++ post)).
      apply last_cons. }
    rewrite Lp, En.
    replace (S (length pre) + length r)%nat
      with (length pre + length ("{"%char :: r))%nat by (simpl; lia).
    apply slice_middle.
Qed.

Lemma split_at_brace (content : text) (start_brace : nat) :
  nth_error content start_brace = Some "{"%char ->
  exists r, skipn start_brace content = "{"%char :: r
            /\ content = firstn start_brace content ++ "{"%char :: r
            /\ length (firstn start_brace content) = start_brace.
Proof.
  intros H.
  assert (L : (start_brace < length content)%nat)
    by (apply nth_error_Some; congruence).
  destruct (skipn start_brace content) as [|ch r] eqn:E.
  - apply (f_equal (@length ascii)) in E. rewrite length_skipn in E. simpl in E. lia.
  - assert (ch = "{"%char).
    { pose proof (firstn_skipn start_brace content) as FS. rewrite E in FS.
      rewrite <- FS in H. rewrite nth_error_app2 in H by (rewrite length_firstn; lia).
      rewrite length_firstn in H.
      replace (start_brace - Nat.min start_brace (length content))%nat with 0%nat in H by lia.
      simpl in H. congruence. }
    subst ch. exists r. split; [reflexivity|]. split.
    + rewrite <- E. symmetry. apply firstn_skipn.
    + rewrite length_firstn. lia.
Qed.

(** X1.  At an opening brace the extractor returns the empty text when the
    depth never comes back to 0, and otherwise the shortest balanced
    region that starts there; it returns nothing else. *)
Theorem extract_block_empty_or_balanced (content : text) (start_brace : nat) :
  nth_error content start_brace = Some "{"%char ->
  (never_closed (skipn start_brace content) = true
   /\ _extract_block content start_brace = [])
  \/ (never_closed (skipn start_brace content) = false
      /\ exists blk post,
           skipn start_brace content = blk ++ post
           /\ balanced_block blk = true
           /\ _extract_block content start_brace = blk).
Proof.
  intros H. destruct (split_at_brace content start_brace H) as (r & Sk & Ct & Ln).
  destruct (first_close r 1) as [Never | (blk & post & -> & NE & T & P)]; [lia| |].
  - left.
    assert (NC : never_closed (skipn start_brace content) = true).
    { rewrite Sk. unfold never_closed. apply forallb_forall. intros n Hn.
      rewrite in_seq in Hn. apply negb_true_iff, Z.eqb_neq.
      destruct n as [|n]; [lia|].
      change (firstn (S n) ("{"%char :: r)) with ("{"%char :: firstn n r).
      change (brace_depth ("{"%char :: firstn n r)) with (1 + brace_depth (firstn n r)).
      destruct n as [|n]; [simpl; lia|]. apply Never. simpl in Hn. lia. }
    split; [exact NC|].
    unfold _extract_block.
    rewrite block_loop_never_closed; [apply slice_same | reflexivity |].
    intros n Hn. simpl. apply (never_closed_spec _ NC). exact Hn.
  - right. split.
    + rewrite Sk. unfold never_closed.
      apply not_true_is_false. intros F. rewrite forallb_forall in F.
      specialize (F (S (length blk))). rewrite in_seq in F.
      assert (Hin : (1 <= S (length blk) < 1 + length ("{"%char :: blk ++ post))%nat)
        by (simpl; rewrite length_app; lia).
      specialize (F Hin). apply negb_true_iff, Z.eqb_neq in F. apply F.
      change (firstn (S (length blk)) ("{"%char :: blk ++ post))
        with ("{"%char :: firstn (length blk) (blk ++ post)).
      rewrite firstn_pre.
      change (brace_depth ("{"%char :: blk)) with (1 + brace_depth blk). exact T.
    + exists ("{"%char :: blk), post. split; [exact Sk|]. split.
      * apply balanced_block_intro; assumption.
      * rewrite Ct at 1. rewrite <- Ln at 2.
        change ("{"%char :: blk ++ post) with (("{"%char :: blk) ++ post).
        apply extract_block_at; assumption.
Qed.

Lemma extract_block_empty_or_balanced_witness :
  nth_error (str "f() { a { } b } g") 4 = Some "{"%char
  /\ ((never_closed (skipn 4 (str "f() { a { } b } g")) = true
       /\ _extract_block (str "f() { a { } b } g") 4 = [])
      \/ (never_closed (skipn 4 (str "f() { a { } b } g")) = false
          /\ exists blk post,
               skipn 4 (str "f() { a { } b } g") = blk ++ post
               /\ balanced_block blk = true
               /\ _extract_block (str "f() { a { } b } g") 4 = blk)).
Proof.
  split; [reflexivity|].
  apply (extract_block_empty_or_balanced (str "f() { a { } b } g") 4). reflexivity.
Defined.

(** X2.  Extracting once more from what the extractor returned gives the same
    text. *)
Theorem extract_block_idempotent (content : text) (start_brace : nat) :
  nth_error content start_brace = Some "{"%char ->
  _extract_block (_extract_block content start_brace) 0
  = _extract_block content start_brace.
Proof.
  intros H. destruct (split_at_brace content start_brace H) as (r & Sk & Ct & Ln).
  destruct (first_close r 1) as [Never | (blk & post & -> & NE & T & P)]; [lia| |].
  - assert (E : _extract_block content start_brace = []).
    { unfold _extract_block.
      rewrite block_loop_never_closed; [apply slice_same | reflexivity |].
      intros n Hn. rewrite Sk. simpl depth.
      destruct n as [|n]; [lia|].
      change (firstn (S n) ("{"%char :: r)) with ("{"%char :: firstn n r).
      change (brace_depth ("{"%char :: firstn n r)) with (1 + brace_depth (firstn n r)).
      destruct n as [|n]; [simpl; lia|]. rewrite Z.add_0_l. apply Never.
      rewrite Sk in Hn. simpl in Hn. lia. }
    rewrite E. reflexivity.
  - assert (E : _extract_block content start_brace = "{"%char :: blk).
    { rewrite Ct at 1. rewrite <- Ln at 2.
      change ("{"%char :: blk ++ post) with (("{"%char :: blk) ++ post).
      apply extract_block_at; assumption. }
    rewrite E.
    pose proof (extract_block_at [] blk [] NE T P) as I.
    simpl in I. rewrite app_nil_r in I. exact I.
Qed.

Lemma extract_block_idempotent_witness :
  nth_error (str "f() { a { } b } g") 4 = Some "{"%char
  /\ _extract_block (_extract_block (str "f() { a { } b } g") 4) 0
     = _extract_block (str "f() { a { } b } g") 4.
Proof.
  split; [reflexivity|].
  apply (extract_block_idempotent (str "f() { a { } b } g") 4). reflexivity.
Defined.

End BlockMoreProps.

(** ** Rounded percentages *)

Module NumFacts.
Import PyNum CodeMetrics.

Local Open Scope Z_scope.

(** Rounding to a tenth keeps a number between 0 and 100 there. *)
Lemma round1_bounds (q : Q) :
  (0 <= q)%Q -> (q <= 100)%Q -> (0 <= round1 q)%Q /\ (round1 q <= 100)%Q.
Proof.
  destruct q as [n d]. unfold Qle, round1. cbn [Qnum Qden].
  change (Z.pos 1) with 1. rewrite !Z.mul_1_r.
  set (D := Zpos d). assert (HD : 0 < D) by (unfold D; lia).
  intros H0 H1. rewrite Z.mul_0_l in H0.
  pose proof (Z.div_mod (n * 10) D ltac:(lia)) as DM.
  pose proof (Z.mod_pos_bound (n * 10) D HD) as MB.
  set (fl := n * 10 / D) in *. set (r := (n * 10) mod D) in *.
  assert (F0 : 0 <= fl) by (apply Z.div_pos; lia).
  assert (F1 : fl <= 1000) by nia.
  assert (R : fl = 1000 -> r = 0) by nia.
  change (Z.pos 10) with 10.
  destruct (Z.ltb_spec (2 * r) D); [lia|].
  destruct (Z.ltb_spec D (2 * r)); [lia|].
  destruct (Z.even fl); lia.
Qed.

Lemma round1_tenths (q : Q) : exists t : Z, round1 q = (t # 10)%Q.
Proof. unfold round1. eexists. reflexivity. Qed.

Lemma ratio_bounds (a b : Z) :
  0 <= a <= b -> 0 < b ->
  (0 <= inject_Z a / inject_Z b * 100)%Q /\ (inject_Z a / inject_Z b * 100 <= 100)%Q.
Proof.
  intros Ha Hb.
  assert (Pb : (0 < inject_Z b)%Q).
  { change 0%Q with (inject_Z 0). rewrite <- Zlt_Qlt. exact Hb. }
  assert (L : (0 <= inject_Z a / inject_Z b)%Q).
  { apply Qle_shift_div_l; [exact Pb|]. rewrite Qmult_0_l.
    change 0%Q with (inject_Z 0). rewrite <- Zle_Qle. lia. }
  assert (U : (inject_Z a / inject_Z b <= 1)%Q).
  { apply Qle_shift_div_r; [exact Pb|]. rewrite Qmult_1_l.
    rewrite <- Zle_Qle. lia. }
  split; Lqa.lra.
Qed.

(** [round(a / max(b, 1) * 100, 1)] is a percentage when [0 <= a <= b]. *)
Lemma percent_bounds (a b : Z) :
  0 <= a <= b -> (0 <= percent a b)%Q /\ (percent a b <= 100)%Q.
Proof.
  intros H. unfold percent.
  destruct (ratio_bounds a (Z.max b 1)) as [L U]; [lia | lia |].
  apply round1_bounds; assumption.
Qed.

Lemma len_nonneg {X : Type} (l : list X) : 0 <= len l.
Proof. unfold len. lia. Qed.

Lemma len_filter_le {X : Type} (p : X -> bool) (l : list X) : len (filter p l) <= len l.
Proof. unfold len. pose proof (filter_length_le p l). lia. Qed.

End NumFacts.

(** ** More on the size analyzer *)

Module SizeMoreProps.
Import PyStr PyNum CodeMetrics StrFacts NumFacts.

Local Open Scope Z_scope.

Lemma split_from_count (sep : ascii) (s cur : text) :
  length (split_from sep cur s) = S (count_char sep s).
Proof.
  unfold count_char. revert cur. induction s as [|c r IH]; intros cur; simpl.
  - reflexivity.
  - rewrite (Ascii.eqb_sym sep c).
    destruct (Ascii.eqb c sep); simpl; rewrite IH; reflexivity.
Qed.

Lemma split_from_trailing (sep : ascii) (s cur : text) :
  In [] (split_from sep cur (s ++ [sep])).
Proof.
  revert cur. induction s as [|c r IH]; intros cur; cbn [split_from app].
  - rewrite Ascii.eqb_refl. apply in_cons. apply (in_eq [] []).
  - destruct (Ascii.eqb c sep); [apply in_cons|]; apply IH.
Qed.

(** X3.  [total_lines] is the number of newline characters of the file plus
    one: a file that ends in a newline counts the empty text after it as a
    line, and a blank one. *)
Theorem total_lines_counts_newlines (file_content : text) :
  total_lines (_analyze_size (init file_content))
  = Z.of_nat (count_char nl file_content) + 1
  /\ (endswith file_content [nl] = true ->
      1 <= blank_lines (_analyze_size (init file_content))).
Proof.
  unfold _analyze_size, init, len; simpl. split.
  - unfold split. rewrite split_from_count. lia.
  - intros E.
    assert (In [] (split nl file_content)) as Hin.
    { unfold endswith in E.
      destruct (rev file_content) as [|c r] eqn:R; [discriminate|].
      change (Ascii.eqb nl c && startswith r [] = true) in E.
      apply andb_true_iff in E. destruct E as [E _]. apply Ascii.eqb_eq in E. subst c.
      assert (F : file_content = rev r ++ [nl]).
      { rewrite <- (rev_involutive file_content), R. reflexivity. }
      rewrite F. apply split_from_trailing. }
    assert (In [] (filter is_blank (split nl file_content))) as Hf
      by (apply filter_In; split; [exact Hin | reflexivity]).
    destruct (filter is_blank (split nl file_content)); [contradiction | simpl; lia].
Qed.

Lemma total_lines_counts_newlines_witness :
  endswith (str "a" ++ [nl]) [nl] = true
  /\ 1 <= blank_lines (_analyze_size (init (str "a" ++ [nl]))).
Proof.
  split; [reflexivity|].
  apply (total_lines_counts_newlines (str "a" ++ [nl])). reflexivity.
Defined.

(** X4.  The comment ratio is a percentage with one decimal: a number of
    tenths between 0 and 100. *)
Theorem comment_ratio_is_percentage (file_content : text) :
  let m := _analyze_size (init file_content) in
  (0 <= comment_ratio m)%Q /\ (comment_ratio m <= 100)%Q
  /\ (exists t : Z, comment_ratio m = (t # 10)%Q)
  /\ comment_lines m <= total_lines m.
Proof.
  cbv zeta. unfold _analyze_size.
  cbn [comment_ratio comment_lines total_lines].
  set (ls := lines (init file_content)).
  pose proof (len_filter_le _is_comment_line ls) as C.
  pose proof (len_nonneg (filter _is_comment_line ls)) as C0.
  assert (P : 0 < len ls).
  { unfold ls, init, len. cbn [lines].
    pose proof (split_length nl file_content). lia. }
  destruct (Z.gtb_spec (len ls) 0) as [_|F]; [|lia].
  destruct (ratio_bounds (len (filter _is_comment_line ls)) (len ls)) as [L U];
    [lia | lia |].
  destruct (round1_bounds _ L U) as [L' U'].
  split; [exact L'|]. split; [exact U'|]. split; [apply round1_tenths | exact C].
Qed.

End SizeMoreProps.

(** ** More on the duplication analyzer *)

Module DuplicationMoreProps.
Import PyStr PyNum PyDict CodeMetrics DuplicationSpec StrFacts NumFacts DuplicationProps.

Local Open Scope Z_scope.

Lemma sum_map_add {X : Type} (f g : X -> Z) (l : list X) :
  sum (map (fun x => f x + g x) l) = sum (map f l) + sum (map g l).
Proof.
  induction l as [|x l IH]; [reflexivity|].
  cbn [map]. rewrite !sum_cons, IH. lia.
Qed.

Lemma sum_map_ext {X : Type} (f g : X -> Z) (l : list X) :
  (forall x, In x l -> f x = g x) -> sum (map f l) = sum (map g l).
Proof.
  intros E. induction l as [|x l IH]; [reflexivity|].
  cbn [map]. rewrite !sum_cons, IH, (E x); [reflexivity | left; reflexivity |].
  intros y Hy. apply E. right. exact Hy.
Qed.

Lemma sum_map_const {X : Type} (c : Z) (l : list X) :
  sum (map (fun _ => c) l) = c * Z.of_nat (length l).
Proof.
  induction l as [|x l IH]; [unfold sum; simpl; lia|].
  cbn [map length]. rewrite sum_cons, IH. lia.
Qed.

(** Over keys without repetition, the indicator of [y] adds up to 1 when
    [y] is a key. *)
Lemma sum_indicator (ks : list text) (y : text) :
  NoDup ks -> In y ks ->
  sum (map (fun k => if text_dec y k then 1 else 0) ks) = 1.
Proof.
  induction ks as [|k ks IH]; intros N Hin; [contradiction|].
  inversion N as [|? ? Hn Hd]; subst.
  cbn [map]. rewrite sum_cons.
  destruct (text_dec y k) as [->|Hne].
  - rewrite (sum_map_ext _ (fun _ => 0)).
    + rewrite sum_map_const. lia.
    + intros x Hx. destruct (text_dec k x) as [->|]; [contradiction | reflexivity].
  - rewrite IH; [lia | exact Hd |]. destruct Hin; [congruence | assumption].
Qed.

(** The occurrences of the keys add up to the length of the list. *)
Lemma sum_occurrences (ks ys : list text) :
  NoDup ks -> incl ys ks ->
  sum (map (fun k => Z.of_nat (occurrences ys k)) ks) = Z.of_nat (length ys).
Proof.
  intros N. induction ys as [|y ys IH]; intros I.
  - rewrite (sum_map_ext _ (fun _ => 0)); [|intros; reflexivity].
    rewrite sum_map_const. simpl. lia.
  - rewrite (sum_map_ext _ (fun k => (if text_dec y k then 1 else 0)
                                    + Z.of_nat (occurrences ys k))).
    + rewrite sum_map_add, IH, sum_indicator.
      * cbn [length]. lia.
      * exact N.
      * apply I. left. reflexivity.
      * intros x Hx. apply I. right. exact Hx.
    + intros k _. unfold occurrences. cbn [count_occ].
      destruct (text_dec y k); lia.
Qed.

Lemma sum_recurring (texts : list text) :
  spec_duplicate_lines texts
  = Z.of_nat (length texts) - Z.of_nat (length (nodup text_dec texts)).
Proof.
  unfold spec_duplicate_lines, recurring.
  set (ks := nodup text_dec texts).
  assert (P : forall k, In k ks -> (1 <= occurrences texts k)%nat).
  { intros k Hk. unfold ks in Hk. rewrite nodup_In in Hk.
    apply (count_occ_In text_dec) in Hk. unfold occurrences. lia. }
  assert (E : sum (map (fun t => Z.of_nat (occurrences texts t) - 1)
                       (filter (fun t => (2 <=? occurrences texts t)%nat) ks))
              = sum (map (fun t => Z.of_nat (occurrences texts t) + (-1)) ks)).
  { clearbody ks. induction ks as [|k ks IH]; [reflexivity|].
    cbn [filter map]. rewrite sum_cons.
    assert (Pk := P k (or_introl eq_refl)).
    assert (IH' := IH (fun x Hx => P x (or_intror Hx))).
    destruct (Nat.leb_spec 2 (occurrences texts k)).
    - cbn [map]. rewrite sum_cons, IH'. lia.
    - rewrite IH'. lia. }
  rewrite E, sum_map_add, sum_map_const, sum_occurrences.
  - lia.
  - apply NoDup_nodup.
  - intros x Hx. apply nodup_In. exact Hx.
Qed.

Lemma nodup_length_le (l : list text) : (length (nodup text_dec l) <= length l)%nat.
Proof.
  induction l as [|x l IH]; [reflexivity|]. cbn [nodup].
  destruct (in_dec text_dec x l); simpl; lia.
Qed.

Lemma nodup_same_length (l : list text) :
  length (nodup text_dec l) = length l <-> NoDup l.
Proof.
  split.
  - induction l as [|x l IH]; intros E; [constructor|].
    cbn [nodup] in E. pose proof (nodup_length_le l) as Le.
    destruct (in_dec text_dec x l) as [Hin|Hn]; simpl in E; [lia|].
    constructor; [exact Hn | apply IH; lia].
  - intros N. rewrite nodup_fixed_point; [reflexivity | exact N].
Qed.

(** X5.  [duplicate_lines] is the number of meaningful lines minus the number
    of distinct ones, so it is 0 exactly when no meaningful line repeats;
    there are never more duplicated segments than duplicate lines. *)
Theorem duplicate_lines_identity (file_content : text) :
  let m := _analyze_duplication (init file_content) in
  let texts := meaningful_texts file_content in
  duplicate_lines m = len texts - len (nodup text_dec texts)
  /\ 0 <= duplicate_lines m <= len texts
  /\ (duplicate_lines m = 0 <-> NoDup texts).
Proof.
  cbv zeta. unfold _analyze_duplication, meaningful_texts.
  cbn [duplicate_lines].
  set (texts := map snd (meaningful_lines (init file_content))).
  rewrite duplicate_lines_spec, sum_recurring.
  pose proof (nodup_length_le texts) as Le.
  pose proof (nodup_same_length texts) as Eq.
  unfold len. split; [reflexivity|]. split; [lia|].
  rewrite <- Eq. lia.
Qed.

Lemma segments_le_lines (d : dict nat) :
  len (duplicates_of d)
  <= sum (map (fun count => Z.of_nat count - 1) (values (duplicates_of d))).
Proof.
  unfold duplicates_of, values, len.
  induction d as [|[k v] d IH]; [unfold sum; simpl; lia|].
  cbn [filter snd].
  destruct (Nat.ltb_spec 1 v); [|exact IH].
  cbn [map snd length]. rewrite sum_cons. lia.
Qed.

(** X6.  The duplication percentage is a percentage with one decimal; the
    segments are no more than the duplicate lines, and at most 5 of them
    are listed. *)
Theorem duplication_bounds (file_content : text) :
  let m := _analyze_duplication (init file_content) in
  (0 <= duplicate_percentage m)%Q /\ (duplicate_percentage m <= 100)%Q
  /\ (exists t : Z, duplicate_percentage m = (t # 10)%Q)
  /\ 0 <= duplicate_segments m <= duplicate_lines m
  /\ length (duplicated_blocks m) = Nat.min 5 (Z.to_nat (duplicate_segments m)).
Proof.
  cbv zeta. unfold _analyze_duplication.
  cbn [duplicate_lines duplicate_percentage duplicate_segments duplicated_blocks].
  set (lines := meaningful_lines (init file_content)).
  set (texts := map snd lines).
  pose proof (segments_le_lines (Counter texts)) as S.
  pose proof (len_nonneg (duplicates_of (Counter texts))) as S0.
  assert (L : len lines = len texts)
    by (unfold len, texts; rewrite length_map; reflexivity).
  assert (B : sum (map (fun count => Z.of_nat count - 1)
                       (values (duplicates_of (Counter texts)))) <= len lines).
  { rewrite duplicate_lines_spec, sum_recurring, L. unfold len. lia. }
  destruct (percent_bounds
              (sum (map (fun count => Z.of_nat count - 1)
                        (values (duplicates_of (Counter texts)))))
              (len lines)) as [P0 P1]; [lia|].
  split; [exact P0|]. split; [exact P1|].
  split; [apply round1_tenths|]. split; [lia|].
  rewrite length_firstn. unfold keys, len. rewrite length_map. lia.
Qed.

End DuplicationMoreProps.

(** ** The test analyzer *)

Module TestProps.
Import PyStr PyNum PyDict CodeMetrics NumFacts.

Local Open Scope Z_scope.

(** A loop that adds 1 for some elements counts no more than all. *)
Lemma count_fold_bounds {X : Type} (p : X -> bool) (l : list X) (c : Z) :
  c <= fold_left (fun count x => if p x then count + 1 else count) l c <= c + len l.
Proof.
  unfold len. revert c. induction l as [|x l IH]; intros c; cbn [fold_left length].
  - lia.
  - destruct (p x).
    + specialize (IH (c + 1)). lia.
    + specialize (IH c). lia.
Qed.

Lemma flat_map_option_length {X Y : Type} (p : X -> bool) (f : X -> Y) (l : list X) :
  (length (flat_map (fun x => if p x then [f x] else []) l) <= length l)%nat.
Proof.
  induction l as [|x l IH]; [reflexivity|]. cbn [flat_map].
  destruct (p x); simpl; lia.
Qed.

(** X7.  The long tests, the tests organised as AAA and the tests with
    exception handling are each no more than the test methods, and the
    two percentages are percentages with one decimal. *)
Theorem test_counts_bounded (file_content : text) :
  let m := _analyze_tests (init file_content) in
  0 <= long_test_count m <= test_method_count m
  /\ 0 <= aaa_organized_count m <= test_method_count m
  /\ 0 <= tests_with_exception_handling m <= test_method_count m
  /\ (0 <= aaa_percentage m)%Q /\ (aaa_percentage m <= 100)%Q
  /\ (0 <= exception_handling_percentage m)%Q
  /\ (exception_handling_percentage m <= 100)%Q
  /\ (0 <= asserts_per_test m)%Q.
Proof.
  cbv zeta. unfold _analyze_tests.
  cbn [long_test_count test_method_count aaa_organized_count
       tests_with_exception_handling aaa_percentage
       exception_handling_percentage asserts_per_test].
  set (self := init file_content).
  set (tm := test_methods self).
  assert (A : 0 <= _count_aaa_organized self <= len tm).
  { unfold _count_aaa_organized. fold tm.
    pose proof (count_fold_bounds
      (fun nb : text * text =>
         Re.found Re.I (Re.compile "//\s*(arrange|act|assert|given|when|then)") (snd nb)
         || Re.found Re.no_flags (Re.compile "(=\s*new\s+|@Autowired|mock\()") (snd nb)
            && Re.found Re.no_flags
                 (Re.compile "\.(perform|execute|call|invoke|get|post|put)") (snd nb)
            && Re.found Re.no_flags (Re.compile "(assert|verify|andExpect)") (snd nb))
      tm 0) as B.
    exact B. }
  set (handled := filter _ tm).
  assert (H : 0 <= len handled <= len tm)
    by (split; [apply len_nonneg | apply len_filter_le]).
  set (long := flat_map _ tm).
  assert (L : 0 <= len long <= len tm).
  { split; [apply len_nonneg|]. unfold len, long.
    pose proof (flat_map_option_length
                  (fun nb : text * text => (20 <? nonblank_lines (snd nb))%nat)
                  (fun nb => (fst nb, nonblank_lines (snd nb))) tm) as B.
    apply Nat2Z.inj_le. exact B. }
  destruct (percent_bounds _ _ A) as [A0 A1].
  destruct (percent_bounds _ _ H) as [H0 H1].
  split; [exact L|]. split; [exact A|]. split; [exact H|].
  split; [exact A0|]. split; [exact A1|]. split; [exact H0|]. split; [exact H1|].
  assert (C0 : 0 <= _count_assertions self).
  { unfold _count_assertions.
    assert (G : forall (ps : list string) (c : Z), 0 <= c ->
              0 <= fold_left
                     (fun count p =>
                        count + Z.of_nat (Re.count Re.no_flags (Re.compile p) (content self)))
                     ps c).
    { induction ps as [|p ps IH]; intros c Hc; cbn [fold_left]; [exact Hc|].
      apply IH. lia. }
    apply G. lia. }
  assert (Q0 : (0 <= inject_Z (_count_assertions self) / inject_Z (Z.max (len tm) 1))%Q).
  { apply Qle_shift_div_l.
    - change 0%Q with (inject_Z 0). rewrite <- Zlt_Qlt. lia.
    - rewrite Qmult_0_l. change 0%Q with (inject_Z 0). rewrite <- Zle_Qle. exact C0. }
  unfold round1. unfold Qle. cbn [Qnum Qden]. rewrite Z.mul_0_l, Z.mul_1_r.
  set (q := (inject_Z (_count_assertions self) / inject_Z (Z.max (len tm) 1))%Q) in *.
  assert (N0 : 0 <= Qnum q).
  { unfold Qle in Q0. cbn [Qnum Qden] in Q0. lia. }
  assert (F0 : 0 <= Qnum q * 10 / Z.pos (Qden q)) by (apply Z.div_pos; lia).
  destruct (_ <? _); [exact F0|].
  destruct (_ <? _); [lia|]. destruct (Z.even _); lia.
Qed.

End TestProps.

(** ** More on the complexity analyzer *)

Module ComplexityMoreProps.
Import PyStr PyNum PyDict CodeMetrics.

Local Open Scope Z_scope.

Lemma cyclomatic_fold (code : text) (ps : list string) (c : Z) :
  c <= fold_left
         (fun count p => count + Z.of_nat (Re.count Re.no_flags (Re.compile p) code))
         ps c.
Proof.
  revert c. induction ps as [|p ps IH]; intros c; cbn [fold_left]; [lia|].
  specialize (IH (c + Z.of_nat (Re.count Re.no_flags (Re.compile p) code))). lia.
Qed.

Lemma cognitive_line_nonneg (st : Z * Z) (line : text) :
  0 <= fst st -> 0 <= snd st ->
  0 <= fst (cognitive_line st line) /\ 0 <= snd (cognitive_line st line).
Proof.
  destruct st as [score nesting]. cbn [fst snd]. intros Hs Hn.
  unfold cognitive_line.
  repeat match goal with
         | |- context [if ?b then _ else _] => destruct b
         end; cbn [fst snd]; lia.
Qed.

Lemma cognitive_fold_nonneg (ls : list text) (st : Z * Z) :
  0 <= fst st -> 0 <= snd st ->
  0 <= fst (fold_left cognitive_line ls st).
Proof.
  revert st. induction ls as [|l ls IH]; intros st Hs Hn; cbn [fold_left]; [exact Hs|].
  destruct (cognitive_line_nonneg st l Hs Hn) as [Hs' Hn'].
  apply IH; assumption.
Qed.

Lemma set_forall {V : Type} (P : V -> Prop) (d : dict V) (k : text) (v : V) :
  Forall P (values d) -> P v -> Forall P (values (set d k v)).
Proof.
  unfold values. induction d as [|[k' v'] d IH]; intros F Pv; cbn [set map snd].
  - constructor; [exact Pv | constructor].
  - inversion F as [|? ? Pv' F']; subst.
    destruct (text_eqb k' k); cbn [map snd]; constructor; auto.
Qed.

Lemma fold_set_forall {V : Type} (P : V -> Prop) (f : text -> V)
      (ms : dict text) (d : dict V) :
  (forall body, P (f body)) -> Forall P (values d) ->
  Forall P (values (fold_left (fun d nb => set d (fst nb) (f (snd nb))) ms d)).
Proof.
  intros Pf. revert d. induction ms as [|nb ms IH]; intros d F; cbn [fold_left]; [exact F|].
  apply IH. apply set_forall; [exact F | apply Pf].
Qed.

Lemma max_of_ge (lo : Z) (vs : list Z) :
  vs <> [] -> Forall (fun v => lo <= v) vs -> lo <= max_of vs.
Proof.
  destruct vs as [|v vs]; [congruence|]. intros _ F.
  inversion F as [|? ? Hv F']; subst. unfold max_of.
  clear F F'. revert v Hv. induction vs as [|w vs IH]; intros v Hv; cbn [fold_left].
  - exact Hv.
  - apply IH. lia.
Qed.

(** X8.  The cyclomatic complexity of any code is 1 or more and its cognitive
    complexity is not negative: the nesting level never falls below 0.
    So every method of a file has a cyclomatic complexity of 1 or more,
    and so has the maximum when the file has a method. *)
Theorem complexity_lower_bounds (file_content : text) :
  (forall code, 1 <= _calc_cyclomatic code /\ 0 <= _calc_cognitive code)
  /\ let m := complexity_of_methods (init file_content) in
     Forall (fun v => 1 <= v) (values (cyclomatic_complexity m))
     /\ Forall (fun v => 0 <= v) (values (cognitive_complexity m))
     /\ (methods (init file_content) <> [] -> 1 <= max_cyclomatic m)
     /\ 0 <= max_cognitive m.
Proof.
  assert (B : forall code, 1 <= _calc_cyclomatic code /\ 0 <= _calc_cognitive code).
  { intros code. split.
    - unfold _calc_cyclomatic. apply cyclomatic_fold.
    - unfold _calc_cognitive. apply cognitive_fold_nonneg; simpl; lia. }
  split; [exact B|]. cbv zeta. unfold complexity_of_methods.
  cbn [cyclomatic_complexity cognitive_complexity max_cyclomatic max_cognitive].
  set (ms := methods (init file_content)).
  assert (F1 : Forall (fun v => 1 <= v)
                 (values (fold_left (fun d nb => set d (fst nb) (_calc_cyclomatic (snd nb)))
                                    ms [])))
    by (apply fold_set_forall; [intros; apply B | constructor]).
  assert (F0 : Forall (fun v => 0 <= v)
                 (values (fold_left (fun d nb => set d (fst nb) (_calc_cognitive (snd nb)))
                                    ms [])))
    by (apply fold_set_forall; [intros; apply B | constructor]).
  split; [exact F1|]. split; [exact F0|]. split.
  - intros NE.
    destruct (fold_left (fun d nb => set d (fst nb) (_calc_cyclomatic (snd nb))) ms [])
      as [|e d] eqn:E.
    + exfalso. destruct ms as [|nb ms']; [congruence|].
      cbn [fold_left set] in E.
      assert (G : forall (l : dict text) (d0 : dict Z), d0 <> [] ->
                fold_left (fun d nb => set d (fst nb) (_calc_cyclomatic (snd nb))) l d0 <> []).
      { induction l as [|x l IH]; intros d0 H0; cbn [fold_left]; [exact H0|].
        apply IH. destruct d0 as [|[k v] d0]; [congruence|].
        cbn [set]. destruct (text_eqb k (fst x)); discriminate. }
      apply (G ms' [(fst nb, _calc_cyclomatic (snd nb))]); [discriminate | exact E].
    + apply max_of_ge; [discriminate | exact F1].
  - destruct (fold_left (fun d nb => set d (fst nb) (_calc_cognitive (snd nb))) ms [])
      as [|e d] eqn:E; [lia|].
    apply max_of_ge; [discriminate | exact F0].
Qed.

Lemma complexity_lower_bounds_witness :
  methods (init (str "void f() { if (a) { } }")) <> []
  /\ 1 <= max_cyclomatic (complexity_of_methods (init (str "void f() { if (a) { } }"))).
Proof.
  assert (H : methods (init (str "void f() { if (a) { } }")) <> [])
    by (vm_compute; discriminate).
  split; [exact H|].
  destruct (complexity_lower_bounds (str "void f() { if (a) { } }")) as (_ & _ & _ & M & _).
  exact (M H).
Defined.

End ComplexityMoreProps.

(** ** How lines are classified *)

Module LineProps.
Import PyStr PyNum PyDict CodeMetrics StrFacts.

Local Open Scope nat_scope.

Lemma startswith_longer (s p q : text) :
  startswith s (p ++ q) = true -> startswith s p = true.
Proof.
  revert s. induction p as [|a p IH]; intros s H.
  - destruct s; reflexivity.
  - destruct s as [|b s]; [discriminate|].
    cbn [startswith app] in *. apply andb_true_iff in H. destruct H as [E H].
    rewrite E. cbn [andb]. apply IH. exact H.
Qed.

Lemma text_eqb_length (a b : text) : length a <> length b -> text_eqb a b = false.
Proof. intros H. apply text_eqb_neq. intros ->. apply H. reflexivity. Qed.

Lemma lstrip_indent (ws l : text) :
  forallb isspace ws = true -> lstrip (ws ++ l) = lstrip l.
Proof.
  induction ws as [|c ws IH]; intros H; [reflexivity|].
  cbn [forallb] in H. apply andb_true_iff in H. destruct H as [C H].
  cbn [app lstrip]. rewrite C. apply IH. exact H.
Qed.

(** X9.  Two tests in the classification of lines decide nothing.  A line
    that passes [startswith('*/')] has passed [startswith('*')] before,
    and a stripped line of more than 15 characters is none of the four
    short texts that the duplication analyzer goes on to exclude. *)
Theorem redundant_line_tests (line : text) :
  _is_comment_line line
  = (startswith (strip line) (str "//") || startswith (strip line) (str "/*")
     || startswith (strip line) (str "*"))
  /\ is_meaningful line
     = ((15 <? length (strip line))
        && negb (_is_comment_line line)
        && negb (startswith (strip line) (str "import"))
        && negb (startswith (strip line) (str "package"))).
Proof.
  split.
  - unfold _is_comment_line.
    destruct (startswith (strip line) (str "*/")) eqn:E.
    + rewrite (startswith_longer (strip line) (str "*") (str "/") E).
      rewrite !orb_true_r. reflexivity.
    + rewrite orb_false_r. reflexivity.
  - unfold is_meaningful.
    destruct (Nat.ltb_spec 15 (length (strip line))) as [L|L]; [|reflexivity].
    assert (M : mem (strip line) (map str ["{"; "}"; "});"; ""]%string) = false).
    { unfold mem. cbn [map existsb].
      rewrite !text_eqb_length; [reflexivity | | | |]; simpl; lia. }
    rewrite M. cbn [negb]. rewrite andb_true_r. reflexivity.
Qed.

(** X10.  Indentation does not change the kind of a line: whitespace put
    before a line leaves it blank, comment or logical as it was. *)
Theorem classification_ignores_indent (ws line : text) :
  forallb isspace ws = true ->
  is_blank (ws ++ line) = is_blank line
  /\ _is_comment_line (ws ++ line) = _is_comment_line line
  /\ is_meaningful (ws ++ line) = is_meaningful line.
Proof.
  intros H.
  assert (E : strip (ws ++ line) = strip line)
    by (unfold strip; rewrite (lstrip_indent ws line H); reflexivity).
  unfold is_meaningful, is_blank, _is_comment_line. rewrite E.
  repeat split; reflexivity.
Qed.

Lemma classification_ignores_indent_witness :
  forallb isspace (str "    ") = true
  /\ _is_comment_line (str "    " ++ str "// note") = _is_comment_line (str "// note").
Proof.
  split; [reflexivity|].
  apply (classification_ignores_indent (str "    ") (str "// note")). reflexivity.
Defined.

End LineProps.

(** ** More on the score aggregator *)

Module ScoreMoreProps.
Import PyNum CodeMetrics ScoreSpec ScoreProps.

Local Open Scope Z_scope.

Lemma qmin_mono (c x y : Q) : (x <= y)%Q -> (Qmin c x <= Qmin c y)%Q.
Proof.
  intros H. destruct (Q.min_spec c x) as [[L E]|[L E]];
    destruct (Q.min_spec c y) as [[L' E']|[L' E']]; rewrite E, E'; Lqa.lra.
Qed.

Lemma qmin_nonneg (c x : Q) : (0 <= c)%Q -> (0 <= x)%Q -> (0 <= Qmin c x)%Q.
Proof.
  intros Hc Hx. destruct (Q.min_spec c x) as [[_ E]|[_ E]]; rewrite E; assumption.
Qed.

Lemma qmin_zero (c x : Q) : (0 < c)%Q -> (Qmin c x == 0)%Q -> (x == 0)%Q.
Proof.
  intros Hc H. destruct (Q.min_spec c x) as [[L E]|[L E]]; rewrite E in H; Lqa.lra.
Qed.

Lemma inject_min_mono (c a b : Z) :
  a <= b -> (inject_Z (Z.min c a) <= inject_Z (Z.min c b))%Q.
Proof. intros H. rewrite <- Zle_Qle. lia. Qed.

Lemma inject_min_nonneg (c a : Z) : 0 <= c -> 0 <= a -> (0 <= inject_Z (Z.min c a))%Q.
Proof. intros Hc Ha. change 0%Q with (inject_Z 0). rewrite <- Zle_Qle. lia. Qed.

Lemma complexity_deduction_nonneg (metrics : All.AllMetrics) :
  (0 <= complexity_deduction metrics)%Q.
Proof.
  unfold complexity_deduction.
  destruct (Qle_bool (avg_cyclomatic (All.complexity metrics)) 10) eqn:E; cbn [negb].
  - apply Qle_refl.
  - assert (L : ~ (avg_cyclomatic (All.complexity metrics) <= 10)%Q)
      by (rewrite <- Qle_bool_iff; congruence).
    apply Qnot_le_lt in L. apply qmin_nonneg; Lqa.lra.
Qed.

Lemma complexity_deduction_mono (m m' : All.AllMetrics) :
  (avg_cyclomatic (All.complexity m) <= avg_cyclomatic (All.complexity m'))%Q ->
  (complexity_deduction m <= complexity_deduction m')%Q.
Proof.
  intros H. unfold complexity_deduction at 1.
  destruct (Qle_bool (avg_cyclomatic (All.complexity m)) 10) eqn:E; cbn [negb].
  - apply complexity_deduction_nonneg.
  - assert (L : ~ (avg_cyclomatic (All.complexity m) <= 10)%Q)
      by (rewrite <- Qle_bool_iff; congruence).
    apply Qnot_le_lt in L. unfold complexity_deduction.
    destruct (Qle_bool (avg_cyclomatic (All.complexity m')) 10) eqn:E'; cbn [negb].
    + apply Qle_bool_iff in E'. Lqa.lra.
    + apply qmin_mono. Lqa.lra.
Qed.

Lemma aaa_deduction_cases (metrics : All.AllMetrics) :
  ((50 <= aaa_percentage (All.test metrics))%Q /\ aaa_deduction metrics = 0%Q)
  \/ ((aaa_percentage (All.test metrics) < 50)%Q /\ aaa_deduction metrics = 10%Q).
Proof.
  unfold aaa_deduction.
  destruct (Qle_bool 50 (aaa_percentage (All.test metrics))) eqn:E; cbn [negb].
  - left. split; [apply Qle_bool_iff; exact E | reflexivity].
  - right. split; [|reflexivity]. apply Qnot_le_lt. rewrite <- Qle_bool_iff. congruence.
Qed.

(** X11.  The score never goes up when a record gets worse: a higher average
    cyclomatic complexity, more smells, more duplication, more violations,
    more long tests, a lower AAA percentage, more syntax errors or more
    framework violations give a score that is lower or the same. *)
Theorem score_antitone (m m' : All.AllMetrics) :
  (avg_cyclomatic (All.complexity m) <= avg_cyclomatic (All.complexity m'))%Q ->
  code_smell_count (All.code_smells m) <= code_smell_count (All.code_smells m') ->
  (duplicate_percentage (All.duplication m)
   <= duplicate_percentage (All.duplication m'))%Q ->
  violation_count (All.conventions m) <= violation_count (All.conventions m') ->
  long_test_count (All.test m) <= long_test_count (All.test m') ->
  (aaa_percentage (All.test m') <= aaa_percentage (All.test m))%Q ->
  syntax_errors (All.syntax m) <= syntax_errors (All.syntax m') ->
  framework_keyword_violations (All.framework m)
  <= framework_keyword_violations (All.framework m') ->
  calculate_quality_score m' <= calculate_quality_score m.
Proof.
  intros Ha Hs Hd Hv Hl Hp Hx Hf.
  pose proof (complexity_deduction_mono m m' Ha) as D1.
  assert (D2 : (smell_deduction m <= smell_deduction m')%Q)
    by (apply inject_min_mono; lia).
  assert (D3 : (duplication_deduction m <= duplication_deduction m')%Q)
    by (apply qmin_mono; exact Hd).
  assert (D4 : (convention_deduction m <= convention_deduction m')%Q)
    by (apply inject_min_mono; lia).
  assert (D5 : (long_test_deduction m <= long_test_deduction m')%Q)
    by (apply inject_min_mono; lia).
  assert (D6 : (aaa_deduction m <= aaa_deduction m')%Q).
  { destruct (aaa_deduction_cases m) as [[A E]|[A E]];
      destruct (aaa_deduction_cases m') as [[A' E']|[A' E']]; rewrite E, E';
      try discriminate; Lqa.lra. }
  assert (D7 : (syntax_deduction m <= syntax_deduction m')%Q)
    by (apply inject_min_mono; lia).
  assert (D8 : (framework_deduction m <= framework_deduction m')%Q)
    by (apply inject_min_mono; lia).
  unfold calculate_quality_score.
  match goal with
  | |- Z.max 0 (Z.min 100 (py_int ?a)) <= Z.max 0 (Z.min 100 (py_int ?b)) =>
      assert (I : py_int a <= py_int b) by (apply py_int_le; Lqa.lra)
  end.
  lia.
Qed.

Lemma score_antitone_witness :
  calculate_quality_score
    (with_smell_count default_metrics 4) <= calculate_quality_score default_metrics.
Proof.
  apply (score_antitone default_metrics (with_smell_count default_metrics 4));
    vm_compute; discriminate.
Defined.

Lemma py_int_lt (q : Q) (z : Z) : (q < inject_Z z)%Q -> 0 < z -> py_int q < z.
Proof.
  destruct q as [n d]. unfold Qlt, py_int. cbn [Qnum Qden inject_Z].
  change (Z.pos 1) with 1. rewrite Z.mul_1_r. intros H Hz.
  rewrite quot_pos_floor. destruct (Z.leb_spec 0 n).
  - apply Z.div_lt_upper_bound; lia.
  - assert (0 <= (- n) / Z.pos d) by (apply Z.div_pos; lia). lia.
Qed.

Lemma complexity_deduction_zero (metrics : All.AllMetrics) :
  (complexity_deduction metrics == 0)%Q <->
  (avg_cyclomatic (All.complexity metrics) <= 10)%Q.
Proof.
  unfold complexity_deduction.
  destruct (Qle_bool (avg_cyclomatic (All.complexity metrics)) 10) eqn:E; cbn [negb].
  - apply Qle_bool_iff in E. split; [intros _; exact E | intros _; reflexivity].
  - assert (L : ~ (avg_cyclomatic (All.complexity metrics) <= 10)%Q)
      by (rewrite <- Qle_bool_iff; congruence).
    split; [|contradiction].
    intros Z0. apply qmin_zero in Z0; [|reflexivity].
    apply Qnot_le_lt in L. Lqa.lra.
Qed.



End ScoreMoreProps.

(** ** More on the whole analysis *)

Module AnalysisMoreProps.
Import PyStr PyNum PyDict CodeMetrics ReportSpec DuplicationSpec NumFacts.
Import ScoreProps ScoreMoreProps DuplicationProps DuplicationMoreProps AnalysisProps.

Local Open Scope Z_scope.

Lemma analyze_completes_on_two_tokens (name file_content : text) :
  (2 <= distinct_tokens file_content)%nat ->
  exists report, analyze name file_content = Some report.
Proof.
  intros H. unfold analyze, _analyze_complexity.
  destruct (maintainability_completes (init file_content)
              (_analyze_size (init file_content))
              (avg_cyclomatic (complexity_of_methods (init file_content)))) as [mi E].
  - unfold mi_tokens. cbn [content init]. lia.
  - rewrite E. eexists. reflexivity.
Qed.

(** X13.  The analysis raises, on the logarithm of a Halstead volume of 0,
    exactly on the texts with one distinct whitespace-separated token or
    none; on every other text it returns a report. *)
Theorem analyze_raises_iff (name file_content : text) :
  (analyze name file_content = None <-> (distinct_tokens file_content <= 1)%nat)
  /\ ((2 <= distinct_tokens file_content)%nat ->
      exists report, analyze name file_content = Some report).
Proof.
  pose proof (analyze_completes_on_two_tokens name file_content) as C.
  split; [|exact C]. split.
  - intros N. destruct (Nat.le_gt_cases (distinct_tokens file_content) 1) as [L|G];
      [exact L|]. destruct (C G) as [report E]. congruence.
  - intros L. unfold analyze, _analyze_complexity.
    rewrite maintainability_raises; [reflexivity|].
    unfold mi_tokens. cbn [content init]. lia.
Qed.

Lemma analyze_raises_iff_witness :
  (2 <= distinct_tokens (str "class A"))%nat
  /\ exists report, analyze (str "A.java") (str "class A") = Some report.
Proof.
  assert (H : (2 <= distinct_tokens (str "class A"))%nat) by (vm_compute; lia).
  split; [exact H|].
  destruct (analyze_raises_iff (str "A.java") (str "class A")) as [_ C].
  exact (C H).
Defined.

Lemma duplicate_sum_range (texts : list text) :
  0 <= sum (map (fun count => Z.of_nat count - 1) (values (duplicates_of (Counter texts))))
  <= len texts.
Proof.
  rewrite duplicate_lines_spec, sum_recurring.
  pose proof (nodup_length_le texts). unfold len. lia.
Qed.

(** X14.  On the report of an analysis the clamping of the score to the range
    from 0 to 100 changes nothing, the deductions being between 0 and
    their caps; and a file in which no test method is found scores 90 at
    most, for an AAA percentage of 0. *)
Theorem report_score (name file_content : text) (report : All.AllMetrics) :
  analyze name file_content = Some report ->
  calculate_quality_score report
  = py_int (100 - complexity_deduction report - smell_deduction report
            - duplication_deduction report - convention_deduction report
            - long_test_deduction report - aaa_deduction report
            - syntax_deduction report - framework_deduction report)%Q
  /\ 0 <= calculate_quality_score report <= 100
  /\ (test_method_count (All.test report) = 0 -> calculate_quality_score report <= 90).
Proof.
  intros A. unfold analyze in A.
  destruct (_analyze_complexity (init file_content) (_analyze_size (init file_content)))
    as [cx|]; [|discriminate].
  injection A as R.
  set (self := init file_content) in *.
  pose proof (complexity_deduction_nonneg report) as N1.
  assert (N2 : (0 <= smell_deduction report)%Q).
  { rewrite <- R. unfold smell_deduction, _analyze_code_smells.
    cbn [All.code_smells code_smell_count].
    apply inject_min_nonneg; [lia|]. pose proof (len_nonneg
      (flat_map (fun nb : text * text =>
                   if (30 <? nonblank_lines (snd nb))%nat
                   then [Long_Method (fst nb) (nonblank_lines (snd nb))] else [])
                (methods self))).
    unfold len. lia. }
  assert (N3 : (0 <= duplication_deduction report)%Q).
  { rewrite <- R. unfold duplication_deduction, _analyze_duplication.
    cbn [All.duplication duplicate_percentage].
    apply qmin_nonneg; [discriminate|].
    pose proof (duplicate_sum_range (map snd (meaningful_lines self))) as B.
    assert (L : len (meaningful_lines self) = len (map snd (meaningful_lines self)))
      by (unfold len; rewrite length_map; reflexivity).
    apply percent_bounds. lia. }
  assert (N4 : (0 <= convention_deduction report)%Q).
  { rewrite <- R. unfold convention_deduction, _analyze_conventions.
    cbn [All.conventions violation_count].
    apply inject_min_nonneg; [lia | unfold len; lia]. }
  assert (N5 : (0 <= long_test_deduction report)%Q).
  { rewrite <- R. unfold long_test_deduction, _analyze_tests.
    cbn [All.test long_test_count].
    apply inject_min_nonneg; [lia | unfold len; lia]. }
  assert (N6 : (0 <= aaa_deduction report)%Q).
  { destruct (aaa_deduction_cases report) as [[_ E]|[_ E]]; rewrite E; discriminate. }
  assert (N7 : (0 <= syntax_deduction report)%Q).
  { rewrite <- R. unfold syntax_deduction, _analyze_syntax.
    cbn [All.syntax syntax_errors].
    apply inject_min_nonneg; [lia | unfold len; lia]. }
  assert (N8 : (0 <= framework_deduction report)%Q).
  { rewrite <- R. unfold framework_deduction, _analyze_framework.
    cbn [All.framework framework_keyword_violations].
    apply inject_min_nonneg; [lia | unfold len; lia]. }
  assert (U1 : (complexity_deduction report <= 20)%Q).
  { unfold complexity_deduction. destruct (negb _); [apply Q.le_min_l | discriminate]. }
  assert (U2 : (smell_deduction report <= 15)%Q) by apply (inject_min_le 15).
  assert (U3 : (duplication_deduction report <= 15)%Q) by apply Q.le_min_l.
  assert (U4 : (convention_deduction report <= 10)%Q) by apply (inject_min_le 10).
  assert (U5 : (long_test_deduction report <= 10)%Q) by apply (inject_min_le 10).
  assert (U6 : (aaa_deduction report <= 10)%Q).
  { destruct (aaa_deduction_cases report) as [[_ E]|[_ E]]; rewrite E; discriminate. }
  assert (U7 : (syntax_deduction report <= 10)%Q) by apply (inject_min_le 10).
  assert (U8 : (framework_deduction report <= 10)%Q) by apply (inject_min_le 10).
  unfold calculate_quality_score. cbv zeta.
  set (total := (100 - complexity_deduction report - smell_deduction report
                 - duplication_deduction report - convention_deduction report
                 - long_test_deduction report - aaa_deduction report
                 - syntax_deduction report - framework_deduction report)%Q).
  assert (T0 : (inject_Z 0 <= total)%Q) by (unfold total; change (inject_Z 0) with 0%Q; Lqa.lra).
  assert (T1 : (total <= inject_Z 100)%Q)
    by (unfold total; change (inject_Z 100) with 100%Q; Lqa.lra).
  apply py_int_le in T0. apply py_int_le in T1.
  change (py_int (inject_Z 0)) with 0 in T0. change (py_int (inject_Z 100)) with 100 in T1.
  split; [lia|]. split; [lia|].
  intros NT.
  assert (E6 : aaa_deduction report = 10%Q).
  { destruct (aaa_deduction_cases report) as [[P _]|[_ E]]; [exfalso | exact E].
    rewrite <- R in P, NT. cbn [All.test] in P, NT.
    unfold _analyze_tests in P, NT. cbn [aaa_percentage test_method_count] in P, NT.
    assert (TM : test_methods self = []).
    { unfold len in NT. destruct (test_methods self); [reflexivity | simpl in NT; lia]. }
    unfold _count_aaa_organized in P. rewrite TM in P. cbn [fold_left] in P.
    rewrite percent_zero in P. apply P. reflexivity. }
  assert (T9 : (total <= inject_Z 90)%Q).
  { unfold total. rewrite E6. change (inject_Z 90) with 90%Q. Lqa.lra. }
  apply py_int_le in T9. change (py_int (inject_Z 90)) with 90 in T9. lia.
Qed.

Lemma report_score_witness :
  exists report,
    analyze (str "A.java") (str "class A") = Some report
    /\ calculate_quality_score report <= 90.
Proof.
  destruct (analyze (str "A.java") (str "class A")) as [report|] eqn:E.
  - exists report. split; [reflexivity|].
    destruct (report_score (str "A.java") (str "class A") report E) as (_ & _ & S).
    apply S. unfold analyze in E.
    destruct (_analyze_complexity _ _); [|discriminate].
    inversion E. reflexivity.
  - exfalso.
    destruct (analyze_completes_on_two_tokens (str "A.java") (str "class A")) as [r R];
      [vm_compute; lia | congruence].
Defined.

End AnalysisMoreProps.

(** ** The method locator *)

Module MethodProps.
Import PyStr PyNum PyDict CodeMetrics MethodSpec StrFacts DuplicationProps.

Local Open Scope nat_scope.

Lemma keys_set_length {V : Type} (d : dict V) (k : text) (v : V) :
  length (set d k v) <= S (length d).
Proof.
  induction d as [|[k' v'] d IH]; cbn [set length]; [lia|].
  destruct (text_eqb k' k); cbn [length]; lia.
Qed.

Lemma recorded_matches (content : text) (ms : list Re.rmatch) :
  let d := fold_left (record_match content) ms [] in
  NoDup (keys d)
  /\ length d <= length ms
  /\ (forall k, In k (keys d) <-> In k (map (match_name content) ms))
  /\ (forall k dft,
        get d k dft
        = match find (fun mt => text_eqb (match_name content mt) k) (rev ms) with
          | Some mt => match_body content mt
          | None => dft
          end).
Proof.
  cbv zeta. induction ms as [|mt ms IH] using rev_ind.
  - cbn. repeat split; try tauto; try constructor; try lia.
  - rewrite fold_left_app. cbn [fold_left].
    destruct IH as (N & L & K & G).
    set (d := fold_left (record_match content) ms []) in *.
    change (record_match content d mt)
      with (set d (match_name content mt) (match_body content mt)).
    split; [apply nodup_keys_set; exact N|]. split.
    { pose proof (keys_set_length d (match_name content mt) (match_body content mt)).
      rewrite length_app. cbn [length]. lia. }
    split.
    { intros k. rewrite in_keys_set, map_app, in_app_iff, K.
      cbn [map In]. split.
      - intros [H|H]; [right; left; symmetry; exact H | left; exact H].
      - intros [H|[H|[]]]; [right; exact H | left; symmetry; exact H]. }
    intros k dft. rewrite rev_app_distr. cbn [rev app find].
    destruct (text_eqb (match_name content mt) k) eqn:E.
    + apply text_eqb_eq in E. subst k. apply get_set_same.
    + apply text_eqb_neq in E. rewrite get_set_other by congruence. apply G.
Qed.

(** X15.  The methods of a file, and its test methods alike, are kept under
    their names, one entry for a name: there are no more entries than
    matches of the signature pattern, the names are those of the matches,
    and looking a name up gives the block of the last match with that
    name. *)
Theorem methods_last_match_wins (pattern : string) (file_content : text) :
  let ms := Re.finditer Re.no_flags (Re.compile pattern) file_content in
  let d := extract_with pattern file_content in
  _extract_methods file_content = extract_with methods_pattern file_content
  /\ _extract_test_methods file_content = extract_with test_methods_pattern file_content
  /\ NoDup (keys d)
  /\ length d <= length ms
  /\ (forall name, mem name (keys d) = true
                   <-> In name (map (match_name file_content) ms))
  /\ (forall name,
        get d name []
        = match find (fun mt => text_eqb (match_name file_content mt) name) (rev ms) with
          | Some mt => match_body file_content mt
          | None => []
          end).
Proof.
  cbv zeta. split; [reflexivity|]. split; [reflexivity|]. unfold extract_with.
  destruct (recorded_matches file_content
              (Re.finditer Re.no_flags (Re.compile pattern) file_content))
    as (N & L & K & G).
  split; [exact N|]. split; [exact L|]. split; [|intros name; apply G].
  intros name. rewrite <- K. unfold mem. rewrite existsb_exists. split.
  - intros (x & Hx & E). apply text_eqb_eq in E. subst x. exact Hx.
  - intros H. exists name. split; [exact H | apply text_eqb_refl].
Qed.

End MethodProps.

(** ** The convention, syntax and design pattern analyzers *)

Module ReportProps.
Import PyStr PyNum PyDict CodeMetrics StrFacts NumFacts ScoreMoreProps.

Local Open Scope Z_scope.

Lemma in_numbered_from {X : Type} (x : X) (l : list X) (start : nat) :
  In x l -> exists i, In (i, x) (combine (seq start (length l)) l).
Proof.
  revert start. induction l as [|y l IH]; intros start H; [contradiction|].
  cbn [length seq combine]. destruct H as [->|H].
  - exists start. left. reflexivity.
  - destruct (IH (S start) H) as [i Hi]. exists i. right. exact Hi.
Qed.

Lemma len_zero_nil {X : Type} (l : list X) : len l = 0 <-> l = [].
Proof.
  unfold len. destruct l; cbn [length]; split; intros H; try reflexivity;
    try discriminate; lia.
Qed.

(** X16.  A file follows the conventions exactly when no violation is
    recorded, and one line of more than 120 characters is enough for it
    not to follow them. *)
Theorem long_line_breaks_conventions (file_content : text) :
  let m := _analyze_conventions (init file_content) in
  (follows_conventions m = true <-> convention_violations m = [])
  /\ violation_count m = len (convention_violations m)
  /\ ((exists line, In line (lines (init file_content)) /\ (120 < length line)%nat) ->
      follows_conventions m = false /\ 1 <= violation_count m).
Proof.
  cbv zeta. unfold _analyze_conventions.
  cbn [follows_conventions convention_violations violation_count].
  set (classes := flat_map _ (Re.findall _ (Re.compile "class\s+(\w+)") _ _)).
  set (meths := flat_map _ (Re.findall _ (Re.compile
                  "(?:public|private|protected)\s+\w+\s+(\w+)\s*\(") _ _)).
  set (consts := flat_map _ (Re.findall _ (Re.compile
                   "static\s+final\s+\w+\s+(\w+)\s*=") _ _)).
  set (long_lines := flat_map _ (numbered _)).
  set (violations := classes ++ meths ++ consts ++ long_lines).
  split.
  - rewrite Z.eqb_eq. apply len_zero_nil.
  - split; [reflexivity|].
    intros (line & Hin & Hlen).
    destruct (in_numbered_from line _ 1%nat Hin) as [i Hi].
    assert (V : In (Line_length i (length line)) violations).
    { unfold violations. rewrite !in_app_iff. right. right. right.
      unfold long_lines. apply in_flat_map. exists (i, line). split; [exact Hi|].
      cbn [fst snd]. destruct (Nat.ltb_spec 120 (length line)); [left; reflexivity | lia]. }
    assert (P : 1 <= len violations).
    { unfold len. destruct violations; [contradiction | cbn [length]; lia]. }
    split; [apply Z.eqb_neq; lia | exact P].
Qed.

Lemma long_line_breaks_conventions_witness :
  let file := list_ascii_of_string (String.concat "" (repeat "x"%string 121)) in
  (exists line, In line (lines (init file)) /\ (120 < length line)%nat)
  /\ follows_conventions (_analyze_conventions (init file)) = false.
Proof.
  cbv zeta.
  assert (H : exists line,
             In line (lines (init (list_ascii_of_string
                                     (String.concat "" (repeat "x"%string 121)))))
             /\ (120 < length line)%nat).
  { eexists. split; [left; reflexivity | vm_compute; lia]. }
  split; [exact H|].
  destruct (long_line_breaks_conventions
              (list_ascii_of_string (String.concat "" (repeat "x"%string 121))))
    as (_ & _ & L).
  apply (L H).
Defined.

Lemma in_if_single {X : Type} (c : bool) (s x : X) :
  In x (if c then [s] else []) <-> c = true /\ s = x.
Proof.
  destruct c; cbn [In]; split.
  - intros [H|[]]. split; [reflexivity | exact H].
  - intros [_ H]. left. exact H.
  - intros [].
  - intros [H _]. discriminate H.
Qed.

(** X17.  The AAA pattern is listed among the detected patterns exactly when
    the AAA percentage is above 50, and then the score deducts nothing
    for AAA: detection and the low-AAA penalty never fall together. *)
Theorem aaa_pattern_without_penalty (self : JavaTestAnalyzer) (metrics : All.AllMetrics) :
  let m := _analyze_design_patterns self (All.test metrics) in
  (In (str "AAA (Arrange-Act-Assert)") (patterns_detected m)
   <-> (50 < aaa_percentage (All.test metrics))%Q)
  /\ (In (str "AAA (Arrange-Act-Assert)") (patterns_detected m) ->
      aaa_deduction metrics = 0%Q)
  /\ (adheres_to_patterns m = true <-> pattern_violations m = []).
Proof.
  cbv zeta.
  assert (A : In (str "AAA (Arrange-Act-Assert)")
                 (patterns_detected (_analyze_design_patterns self (All.test metrics)))
              <-> (50 < aaa_percentage (All.test metrics))%Q).
  { unfold _analyze_design_patterns. cbn [patterns_detected].
    rewrite !in_app_iff, !in_if_single. split.
    - intros [H|[H|[H|[H|[H|[H|H]]]]]]; destruct H as [C E];
        try (vm_compute in E; discriminate E).
      apply negb_true_iff in C. apply Qnot_le_lt. rewrite <- Qle_bool_iff. congruence.
    - intros L. right. right. right. left. split; [|reflexivity].
      apply negb_true_iff. apply not_true_is_false. rewrite Qle_bool_iff.
      apply Qlt_not_le. exact L. }
  split; [exact A|]. split.
  - intros H. apply A in H.
    destruct (aaa_deduction_cases metrics) as [[_ E]|[L _]]; [exact E|].
    exfalso. Lqa.lra.
  - unfold _analyze_design_patterns. cbn [adheres_to_patterns pattern_violations].
    rewrite Nat.eqb_eq. split.
    + intros H. apply length_zero_iff_nil. exact H.
    + intros ->. reflexivity.
Qed.

Lemma aaa_pattern_without_penalty_witness :
  exists self metrics,
    In (str "AAA (Arrange-Act-Assert)")
       (patterns_detected (_analyze_design_patterns self (All.test metrics)))
    /\ aaa_deduction metrics = 0%Q.
Proof.
  set (t := {| test_method_count := 5; nested_class_count := 0; assert_count := 5;
               asserts_per_test := 1%Q; long_tests := []; long_test_count := 0;
               aaa_organized_count := 4; aaa_percentage := 80%Q;
               tests_with_exception_handling := 0;
               exception_handling_percentage := 0%Q;
               exception_handling_needed := false |}).
  set (m := {| All.file_name := []; All.size := default_size;
               All.complexity := default_complexity; All.test := t;
               All.duplication := default_duplication;
               All.code_smells := default_code_smells;
               All.conventions := default_conventions;
               All.framework := default_framework; All.types := default_types;
               All.syntax := default_syntax;
               All.design_patterns := default_design_patterns |}).
  exists (init []), m.
  assert (H : In (str "AAA (Arrange-Act-Assert)")
                 (patterns_detected (_analyze_design_patterns (init []) (All.test m))))
    by (vm_compute; left; reflexivity).
  split; [exact H|].
  destruct (aaa_pattern_without_penalty (init []) m) as (_ & P & _).
  exact (P H).
Defined.

(** X18.  The syntax analyzer records unbalanced braces exactly when the
    numbers of opening and closing braces differ, with those two numbers;
    every error is counted, and of the linting findings, all counted, the
    first 20 are listed. *)
Theorem unbalanced_braces_recorded (file_content : text) :
  let m := _analyze_syntax (init file_content) in
  (forall opening closing,
     In (Unbalanced_braces opening closing) (syntax_error_details m)
     <-> opening = count_char "{" file_content
         /\ closing = count_char "}" file_content
         /\ opening <> closing)
  /\ syntax_errors m = len (syntax_error_details m)
  /\ (count_char "{" file_content <> count_char "}" file_content -> 1 <= syntax_errors m)
  /\ length (linting_details m) = Nat.min 20 (Z.to_nat (linting_violations m)).
Proof.
  cbv zeta. unfold _analyze_syntax.
  cbn [syntax_error_details syntax_errors linting_details linting_violations content init].
  set (o := count_char "{" file_content). set (c := count_char "}" file_content).
  set (parens := if negb (_ =? _)%nat then [Unbalanced_parentheses _ _] else []).
  set (semis := flat_map _ (numbered _)).
  assert (B : forall opening closing,
             In (Unbalanced_braces opening closing)
                ((if negb (o =? c)%nat then [Unbalanced_braces o c] else [])
                 ++ parens ++ semis)
             <-> opening = o /\ closing = c /\ opening <> closing).
  { intros opening closing. rewrite !in_app_iff, in_if_single. split.
    - intros [[C E]|[H|H]].
      + inversion E; subst. apply negb_true_iff, Nat.eqb_neq in C. auto.
      + unfold parens in H. apply in_if_single in H. destruct H as [_ E]. discriminate E.
      + unfold semis in H. apply in_flat_map in H. destruct H as (il & _ & H).
        destruct (missing_semicolon (snd il)); [|contradiction].
        destruct H as [E|[]]. discriminate E.
    - intros (-> & -> & NE). left. split; [|reflexivity].
      apply negb_true_iff, Nat.eqb_neq. exact NE. }
  split; [exact B|]. split; [reflexivity|]. split.
  - intros NE.
    assert (Hin : In (Unbalanced_braces o c)
                     ((if negb (o =? c)%nat then [Unbalanced_braces o c] else [])
                      ++ parens ++ semis)) by (apply B; auto).
    unfold len.
    destruct ((if negb (o =? c)%nat then [Unbalanced_braces o c] else [])
              ++ parens ++ semis); [contradiction | cbn [length]; lia].
  - rewrite length_firstn. unfold len. rewrite Nat2Z.id. reflexivity.
Qed.

Lemma unbalanced_braces_recorded_witness :
  count_char "{" (str "class A {") <> count_char "}" (str "class A {")
  /\ 1 <= syntax_errors (_analyze_syntax (init (str "class A {"))).
Proof.
  assert (H : count_char "{" (str "class A {") <> count_char "}" (str "class A {"))
    by (vm_compute; discriminate).
  split; [exact H|].
  destruct (unbalanced_braces_recorded (str "class A {")) as (_ & _ & P & _).
  exact (P H).
Defined.

End ReportProps.

(** ** More on the code smell analyzer *)

Module SmellMoreProps.
Import PyStr PyNum PyDict CodeMetrics MethodSpec StrFacts NumFacts ReportProps.

Local Open Scope Z_scope.

Lemma count_char_app (ch : ascii) (a b : text) :
  count_char ch (a ++ b) = (count_char ch a + count_char ch b)%nat.
Proof. unfold count_char. rewrite filter_app, length_app. reflexivity. Qed.

Lemma count_char_rev (ch : ascii) (a : text) : count_char ch (rev a) = count_char ch a.
Proof.
  induction a as [|x a IH]; [reflexivity|].
  cbn [rev]. rewrite count_char_app, IH. unfold count_char. cbn [filter].
  destruct (Ascii.eqb ch x); cbn [length]; lia.
Qed.

Lemma count_char_cons (ch c : ascii) (r : text) :
  count_char ch (c :: r) = ((if Ascii.eqb ch c then 1 else 0) + count_char ch r)%nat.
Proof. unfold count_char. cbn [filter]. destruct (Ascii.eqb ch c); reflexivity. Qed.

(** The characters other than the separator are all in the pieces. *)
Lemma split_from_counts (sep ch : ascii) (s cur : text) :
  ch <> sep ->
  fold_left (fun n l => (n + count_char ch l)%nat) (split_from sep cur s) 0%nat
  = (count_char ch cur + count_char ch s)%nat.
Proof.
  intros NE.
  assert (G : forall (ls : list text) (n : nat),
            fold_left (fun n l => (n + count_char ch l)%nat) ls n
            = (n + fold_left (fun n l => (n + count_char ch l)%nat) ls 0)%nat).
  { induction ls as [|l ls IH]; intros n; cbn [fold_left]; [lia|].
    rewrite (IH (n + count_char ch l)%nat), (IH (0 + count_char ch l)%nat). lia. }
  revert cur. induction s as [|c r IH]; intros cur; cbn [split_from fold_left].
  - rewrite count_char_rev. change (count_char ch []) with 0%nat. lia.
  - destruct (Ascii.eqb_spec c sep) as [->|Hc].
    + cbn [fold_left]. rewrite G, IH, count_char_rev, count_char_cons.
      change (count_char ch []) with 0%nat.
      destruct (Ascii.eqb_spec ch sep); [contradiction | lia].
    + rewrite IH, !count_char_cons. lia.
Qed.

(** The running depth over lines: it ends at the opening braces minus
    the closing ones, and the deepest level is between that difference (or
    0) and the number of opening braces. *)
Lemma max_nesting_bounds (ls : list text) (mx cur opens closes : Z) :
  0 <= closes -> cur = opens - closes -> cur <= mx <= Z.max 0 opens ->
  let opens' := opens + Z.of_nat (fold_left (fun n l => (n + count_char "{" l)%nat) ls 0%nat) in
  let closes' := closes + Z.of_nat (fold_left (fun n l => (n + count_char "}" l)%nat) ls 0%nat) in
  let st := fold_left
              (fun st line =>
                 let '(max_nesting, current_nesting) := st in
                 let current_nesting :=
                   current_nesting
                   + (Z.of_nat (count_char "{" line) - Z.of_nat (count_char "}" line)) in
                 (Z.max max_nesting current_nesting, current_nesting))
              ls (mx, cur) in
  snd st = opens' - closes' /\ snd st <= fst st <= Z.max 0 opens' /\ mx <= fst st.
Proof.
  assert (G : forall (ch : ascii) (l : list text) (n : nat),
            fold_left (fun n l => (n + count_char ch l)%nat) l n
            = (n + fold_left (fun n l => (n + count_char ch l)%nat) l 0)%nat).
  { intros ch. induction l as [|l ll IH]; intros n; cbn [fold_left]; [lia|].
    rewrite (IH (n + count_char ch l)%nat), (IH (0 + count_char ch l)%nat). lia. }
  revert mx cur opens closes. induction ls as [|l ls IH]; intros mx cur opens closes Hc E B.
  - cbv zeta. cbn [fold_left fst snd]. lia.
  - cbv zeta. cbn [fold_left].
    rewrite (G "{"%char ls (0 + count_char "{" l)%nat),
            (G "}"%char ls (0 + count_char "}" l)%nat).
    specialize (IH (Z.max mx (cur + (Z.of_nat (count_char "{" l) - Z.of_nat (count_char "}" l))))
                   (cur + (Z.of_nat (count_char "{" l) - Z.of_nat (count_char "}" l)))
                   (opens + Z.of_nat (count_char "{" l))
                   (closes + Z.of_nat (count_char "}" l))).
    cbv zeta in IH. destruct IH as (S1 & S2 & S3); [lia | lia | lia |].
    rewrite !Nat2Z.inj_add. cbn [Nat.add]. split; [lia|]. split; lia.
Qed.

Lemma max_nesting_range (file_content : text) :
  Z.max 0 (zcount "{" file_content - zcount "}" file_content)
  <= max_nesting (split nl file_content) <= zcount "{" file_content.
Proof.
  unfold max_nesting, zcount.
  pose proof (max_nesting_bounds (split nl file_content) 0 0 0 0) as B.
  cbv zeta in B. destruct B as (S1 & S2 & S3); [lia | lia | lia |].
  unfold split in *.
  rewrite (split_from_counts nl "{" file_content []) in S1, S2 by discriminate.
  rewrite (split_from_counts nl "}" file_content []) in S1 by discriminate.
  change (count_char "{" []) with 0%nat in S1, S2.
  change (count_char "}" []) with 0%nat in S1.
  cbn [Nat.add] in S1, S2. lia.
Qed.

(** X19.  Deep nesting is reported at most as one smell, with the deepest
    running brace depth, and only above 4: never for a file with 4 opening
    braces or fewer, and always for a file with over 4 more opening than
    closing braces.  Every smell is counted. *)
Theorem deep_nesting_reported (file_content : text) :
  let m := _analyze_code_smells (init file_content) in
  (forall d, In (Deep_Nesting d) (code_smells m)
             <-> d = max_nesting (lines (init file_content)) /\ 4 < d)
  /\ (zcount "{" file_content <= 4 -> forall d, ~ In (Deep_Nesting d) (code_smells m))
  /\ (4 < zcount "{" file_content - zcount "}" file_content ->
      exists d, In (Deep_Nesting d) (code_smells m) /\ 4 < d)
  /\ code_smell_count m = len (code_smells m).
Proof.
  cbv zeta. unfold _analyze_code_smells. cbn [code_smells code_smell_count].
  set (self := init file_content).
  set (long := flat_map _ (methods self)).
  set (params := map _ (Re.finditer _ (Re.compile "(\w+)\s*\([^)]{100,}\)") _)).
  set (magic := flat_map _ (Re.finditer _ _ _)).
  set (wild := if _ >? 0 then [Wildcard_Import _] else []).
  assert (D : forall d,
             In (Deep_Nesting d)
                (long ++ params ++ magic
                 ++ (if max_nesting (lines self) >? 4
                     then [Deep_Nesting (max_nesting (lines self))] else []) ++ wild)
             <-> d = max_nesting (lines self) /\ 4 < d).
  { intros d. rewrite !in_app_iff, in_if_single. split.
    - intros [H|[H|[H|[[C E]|H]]]].
      + unfold long in H. apply in_flat_map in H. destruct H as (nb & _ & H).
        destruct (_ <? _)%nat; [|contradiction]. destruct H as [E|[]]. discriminate E.
      + unfold params in H. apply in_map_iff in H. destruct H as (mt & E & _).
        discriminate E.
      + unfold magic in H. apply in_flat_map in H. destruct H as (mt & _ & H).
        destruct (Re.found _ _ _); [contradiction|]. destruct H as [E|[]]. discriminate E.
      + injection E as <-. split; [reflexivity|]. apply Z.gtb_lt. exact C.
      + unfold wild in H. apply in_if_single in H. destruct H as [_ E]. discriminate E.
    - intros [-> L]. right. right. right. left. split; [|reflexivity].
      apply Z.gtb_lt. lia. }
  pose proof (max_nesting_range file_content) as R.
  change (split nl file_content) with (lines self) in R.
  split; [exact D|]. split; [|split; [|reflexivity]].
  - intros Le d Hin. apply D in Hin. lia.
  - intros Gt. exists (max_nesting (lines self)). split; [apply D; split|]; lia.
Qed.

Lemma deep_nesting_reported_witness :
  4 < zcount "{" (str "{{{{{") - zcount "}" (str "{{{{{")
  /\ exists d, In (Deep_Nesting d) (code_smells (_analyze_code_smells (init (str "{{{{{"))))
               /\ 4 < d.
Proof.
  assert (H : 4 < zcount "{" (str "{{{{{") - zcount "}" (str "{{{{{"))
    by (vm_compute; reflexivity).
  split; [exact H|].
  destruct (deep_nesting_reported (str "{{{{{")) as (_ & _ & P & _).
  exact (P H).
Defined.

End SmellMoreProps.

(** ** The score bar *)

Module BarProps.
Import PyStr PyNum CodeMetrics.

Local Open Scope Z_scope.

(** X20.  The bar has its 20 cells exactly for the scores from 0 to 104, so
    for every score that the aggregator gives; a full cell stands for 5
    points, and the bar is green from 80 on and red below 60. *)
Theorem score_bar_width (score : Z) (metrics : All.AllMetrics) :
  ((full_cells (print_score_bar score) + empty_cells (print_score_bar score) = 20)%nat
   <-> 0 <= score <= 104)
  /\ (let bar := print_score_bar (calculate_quality_score metrics) in
      (full_cells bar + empty_cells bar = 20)%nat
      /\ Z.of_nat (full_cells bar) = calculate_quality_score metrics / 5)
  /\ (color (print_score_bar score) = str "green" <-> 80 <= score)
  /\ (color (print_score_bar score) = str "red" <-> score < 60).
Proof.
  assert (W : forall s, (full_cells (print_score_bar s) + empty_cells (print_score_bar s)
                         = 20)%nat <-> 0 <= s <= 104).
  { intros s. unfold print_score_bar. cbn [full_cells empty_cells].
    pose proof (Z.div_mod s 5 ltac:(lia)) as DM.
    pose proof (Z.mod_pos_bound s 5 ltac:(lia)) as MB.
    split; intros H; lia. }
  split; [apply W|]. split.
  - cbv zeta.
    assert (R : 0 <= calculate_quality_score metrics <= 100)
      by (unfold calculate_quality_score; lia).
    split; [apply W; lia|].
    unfold print_score_bar. cbn [full_cells].
    rewrite Z2Nat.id; [reflexivity | apply Z.div_pos; lia].
  - unfold print_score_bar. cbn [color].
    destruct (Z.geb_spec score 80) as [G8|L8];
      destruct (Z.geb_spec score 60) as [G6|L6];
      (split; split; intros X; try reflexivity; try lia; try discriminate X).
Qed.

End BarProps.

(** ** Averages *)

Module AverageProps.
Import PyStr PyNum PyDict CodeMetrics NumFacts DuplicationProps ComplexityMoreProps.

Local Open Scope Z_scope.

(** The tenths that [round1] gives for the fraction [n / d]. *)
Lemma round1_spec (n : Z) (d : positive) :
  exists t : Z,
    round1 (n # d) = (t # 10)%Q
    /\ 2 * (t * Zpos d - 10 * n) <= Zpos d
    /\ 2 * (10 * n - t * Zpos d) <= Zpos d.
Proof.
  unfold round1. cbn [Qnum Qden]. set (D := Zpos d).
  assert (HD : 0 < D) by (unfold D; lia).
  pose proof (Z.div_mod (n * 10) D ltac:(lia)) as DM.
  pose proof (Z.mod_pos_bound (n * 10) D HD) as MB.
  set (fl := n * 10 / D) in *. set (r := (n * 10) mod D) in *.
  eexists. split; [reflexivity|].
  destruct (Z.ltb_spec (2 * r) D); [nia|].
  destruct (Z.ltb_spec D (2 * r)); [nia|].
  destruct (Z.even fl); nia.
Qed.

(** Rounding to a tenth leaves a whole number as it is, and a number
    between two whole numbers between them. *)
Lemma round1_between (q : Q) (lo hi : Z) :
  (inject_Z lo <= q)%Q -> (q <= inject_Z hi)%Q ->
  (inject_Z lo <= round1 q)%Q /\ (round1 q <= inject_Z hi)%Q.
Proof.
  destruct q as [n d]. intros L H.
  destruct (round1_spec n d) as (t & E & U1 & U2). rewrite E.
  unfold Qle in *. cbn [Qnum Qden inject_Z] in *.
  change (Z.pos 1) with 1 in *. rewrite ?Z.mul_1_r in *.
  change (Z.pos 10) with 10. split; nia.
Qed.

Lemma sum_bounds (lo hi : Z) (vs : list Z) :
  Forall (fun v => lo <= v <= hi) vs ->
  lo * len vs <= sum vs <= hi * len vs.
Proof.
  unfold len. induction vs as [|v vs IH]; intros F.
  - unfold sum. cbn. lia.
  - inversion F as [|? ? Hv F']; subst. specialize (IH F').
    rewrite sum_cons. cbn [length]. rewrite Nat2Z.inj_succ. lia.
Qed.

Lemma max_of_upper (vs : list Z) : Forall (fun v => v <= max_of vs) vs.
Proof.
  destruct vs as [|v vs]; [constructor|]. unfold max_of.
  assert (G : forall (l : list Z) (a : Z),
            a <= fold_left Z.max l a /\ Forall (fun x => x <= fold_left Z.max l a) l).
  { induction l as [|x l IH]; intros a; cbn [fold_left]; [split; [lia | constructor]|].
    destruct (IH (Z.max a x)) as [Ha Hl]. split; [lia|].
    constructor; [lia | exact Hl]. }
  destruct (G vs v) as [Hv Hl]. constructor; assumption.
Qed.

Lemma average_between (lo : Z) (vs : list Z) :
  vs <> [] -> Forall (fun v => lo <= v) vs ->
  (inject_Z lo <= average vs)%Q /\ (average vs <= inject_Z (max_of vs))%Q.
Proof.
  intros NE F. unfold average.
  assert (B : Forall (fun v => lo <= v <= max_of vs) vs).
  { pose proof (max_of_upper vs) as U. rewrite Forall_forall in *.
    intros x Hx. split; [apply F | apply U]; exact Hx. }
  apply sum_bounds in B.
  assert (P : 0 < len vs) by (unfold len; destruct vs; [congruence | cbn [length]; lia]).
  assert (Pq : (0 < inject_Z (len vs))%Q)
    by (change 0%Q with (inject_Z 0); rewrite <- Zlt_Qlt; exact P).
  apply round1_between.
  - apply Qle_shift_div_l; [exact Pq|]. rewrite <- inject_Z_mult, <- Zle_Qle. lia.
  - apply Qle_shift_div_r; [exact Pq|]. rewrite <- inject_Z_mult, <- Zle_Qle. lia.
Qed.

(** X21.  When a file has a method, its average cyclomatic complexity is
    between 1 and the maximum, and its average cognitive complexity
    between 0 and the maximum; without a method all four are 0. *)
Theorem averages_below_maxima (file_content : text) :
  let m := complexity_of_methods (init file_content) in
  (methods (init file_content) <> [] ->
   (1 <= avg_cyclomatic m)%Q
   /\ (avg_cyclomatic m <= inject_Z (max_cyclomatic m))%Q
   /\ (0 <= avg_cognitive m)%Q
   /\ (avg_cognitive m <= inject_Z (max_cognitive m))%Q)
  /\ (methods (init file_content) = [] ->
      avg_cyclomatic m = 0%Q /\ max_cyclomatic m = 0
      /\ avg_cognitive m = 0%Q /\ max_cognitive m = 0).
Proof.
  cbv zeta. unfold complexity_of_methods.
  cbn [avg_cyclomatic max_cyclomatic avg_cognitive max_cognitive].
  set (ms := methods (init file_content)).
  assert (B : forall code, 1 <= _calc_cyclomatic code /\ 0 <= _calc_cognitive code).
  { intros code. split.
    - unfold _calc_cyclomatic. apply cyclomatic_fold.
    - unfold _calc_cognitive. apply cognitive_fold_nonneg; simpl; lia. }
  assert (NEf : forall (f : text -> Z) (l : dict text) (d0 : dict Z), d0 <> [] ->
            fold_left (fun d nb => set d (fst nb) (f (snd nb))) l d0 <> []).
  { intros f. induction l as [|x l IH]; intros d0 H0; cbn [fold_left]; [exact H0|].
    apply IH. destruct d0 as [|[k v] d0]; [congruence|].
    cbn [set]. destruct (text_eqb k (fst x)); discriminate. }
  split.
  - intros NE.
    assert (N1 : fold_left (fun d nb => set d (fst nb) (_calc_cyclomatic (snd nb))) ms [] <> []).
    { destruct ms as [|nb ms']; [congruence|]. cbn [fold_left set].
      apply NEf. discriminate. }
    assert (N0 : fold_left (fun d nb => set d (fst nb) (_calc_cognitive (snd nb))) ms [] <> []).
    { destruct ms as [|nb ms']; [congruence|]. cbn [fold_left set].
      apply NEf. discriminate. }
    assert (F1 : Forall (fun v => 1 <= v)
                   (values (fold_left (fun d nb => set d (fst nb) (_calc_cyclomatic (snd nb)))
                                      ms [])))
      by (apply fold_set_forall; [intros; apply B | constructor]).
    assert (F0 : Forall (fun v => 0 <= v)
                   (values (fold_left (fun d nb => set d (fst nb) (_calc_cognitive (snd nb)))
                                      ms [])))
      by (apply fold_set_forall; [intros; apply B | constructor]).
    destruct (fold_left (fun d nb => set d (fst nb) (_calc_cyclomatic (snd nb))) ms [])
      as [|e1 d1] eqn:E1; [congruence|].
    destruct (fold_left (fun d nb => set d (fst nb) (_calc_cognitive (snd nb))) ms [])
      as [|e0 d0] eqn:E0; [congruence|].
    destruct (average_between 1 (values (e1 :: d1))) as [A1 A2];
      [discriminate | exact F1 |].
    destruct (average_between 0 (values (e0 :: d0))) as [A3 A4];
      [discriminate | exact F0 |].
    repeat split; assumption.
  - intros ->. cbn [fold_left]. repeat split; reflexivity.
Qed.

Lemma averages_below_maxima_witness :
  methods (init (str "void f() { if (a) { } }")) <> []
  /\ (1 <= avg_cyclomatic (complexity_of_methods (init (str "void f() { if (a) { } }"))))%Q.
Proof.
  assert (H : methods (init (str "void f() { if (a) { } }")) <> [])
    by (vm_compute; discriminate).
  split; [exact H|].
  destruct (averages_below_maxima (str "void f() { if (a) { } }")) as [P _].
  destruct (P H) as [A _]. exact A.
Defined.

End AverageProps.
